(** * Flowly store: session, accounts, transactions and derived summaries

    A shallow embedding of [src/store.ts] and [src/db.ts].

    - A TypeScript [number] is an IEEE-754 binary64 value; it is modelled
      by Rocq's primitive [float], which is the same format with the same
      rounding (to nearest, ties to even).
    - The zustand store is a record; an action is a computation over the
      store, the log of remote calls it issued and the console, that either
      returns or throws.
    - What the backend answers, and in which order the two requests of a
      [Promise.all] are answered, are arguments of the actions. *)

From Stdlib Require Import Floats ZArith QArith List String Bool Lia.
From Stdlib Require Import Permutation.
Import ListNotations.

Set Warnings "-inexact-float".
Set Implicit Arguments.
Set Primitive Projections.

Local Open Scope string_scope.

(* ================================================================== *)
(** * JavaScript values *)

Definition number := float.

(** [x !== x] holds of NaN only. *)
Definition isNaN (x : number) : bool := negb (PrimFloat.eqb x x).

(** Truthiness, as [||] and [if] test it. *)
Definition truthy_number (x : number) : bool :=
  negb (PrimFloat.eqb x 0%float || isNaN x).

Definition truthy_string (s : string) : bool :=
  negb (String.eqb s "").

(** A nullable column of a wire row: [T | null]. *)
Inductive nullable (T : Type) : Type :=
| null : nullable T
| value : T -> nullable T.
Arguments null {T}.
Arguments value {T} _.

(** An optional property of a local model: [T | undefined]. *)
Inductive optional (T : Type) : Type :=
| undefined : optional T
| defined : T -> optional T.
Arguments undefined {T}.
Arguments defined {T} _.

(** [v || undefined], for a [v] whose truthiness is [truthy]. *)
Definition or_undefined {T} (truthy : T -> bool) (v : nullable T) : optional T :=
  match v with
  | null => undefined
  | value x => if truthy x then defined x else undefined
  end.

(** [Array.prototype.reduce(f, init)]: left to right. *)
Definition reduce {A B} (f : B -> A -> B) (init : B) (l : list A) : B :=
  fold_left f l init.

(* ================================================================== *)
(** * Exact values of numbers

    The rational a finite binary64 value stands for, used to compare what
    the store computes with sums taken in exact arithmetic. *)

Definition pow2Q (e : Z) : Q :=
  match e with
  | Z0 => 1
  | Zpos p => inject_Z (Z.pow_pos 2 p)
  | Zneg p => 1 # Pos.pow 2 p
  end.

Definition exactSF (x : spec_float) : option Q :=
  match x with
  | S754_zero _ => Some 0%Q
  | S754_finite s m e =>
      Some ((if s then inject_Z (Zneg m) else inject_Z (Zpos m)) * pow2Q e)%Q
  | S754_infinity _ | S754_nan => None
  end.

Definition exact (x : number) : option Q := exactSF (Prim2SF x).

Definition isFinite (x : number) : bool :=
  match exact x with Some _ => true | None => false end.

(** The exact value, [0] by convention outside the finite numbers. *)
Definition exactQ (x : number) : Q :=
  match exact x with Some q => q | None => 0%Q end.

(** [x] is finite and stands for exactly [q]. *)
Definition represents (x : number) (q : Q) : Prop :=
  match exact x with Some v => (v == q)%Q | None => False end.

(** The sum of a list of numbers in exact arithmetic. *)
Definition exact_sum (l : list number) : Q :=
  fold_right (fun x q => (exactQ x + q)%Q) 0%Q l.

(** The sum the store takes: binary64 additions, left to right from [0]. *)
Fixpoint ieee_sum_from (acc : number) (l : list number) : number :=
  match l with
  | [] => acc
  | x :: r => ieee_sum_from (acc + x)%float r
  end.

Definition ieee_sum (l : list number) : number := ieee_sum_from 0%float l.

(** One addition is exact: operands and result are finite and the result
    stands for the sum of what the operands stand for. *)
Definition add_is_exact (a x : number) : bool :=
  match exact a, exact x, exact (a + x)%float with
  | Some qa, Some qx, Some qr => Qeq_bool qr (qa + qx)
  | _, _, _ => false
  end.

(** No addition of the left-to-right sum rounds. *)
Fixpoint no_rounding_from (acc : number) (l : list number) : bool :=
  match l with
  | [] => isFinite acc
  | x :: r => add_is_exact acc x && no_rounding_from (acc + x)%float r
  end.

Definition no_rounding (l : list number) : bool := no_rounding_from 0%float l.

(* ================================================================== *)
(** * Data model ([src/db.ts]) and wire rows *)

Module Account.
Record t : Type := mk {
  id : string;
  user_id : string;
  name : string;
  type : string;
  current_balance : number;
  created_at : number
}.
End Account.

(** [TransactionType] is a union of string literals; a value of it is a
    string at run time, and [mapTransaction] casts without a check. *)
Definition TransactionType := string.

Module Transaction.
Record t : Type := mk {
  id : number;
  timestamp : number;
  type : TransactionType;
  amount : number;
  weightChange : number;
  notes : optional string;
  account_id : string;
  category : optional string;
  user_id : string;
  created_at : number;
  related_transaction_id : optional number
}.
End Transaction.

(** The row types of [Database] ([src/supabaseClient.ts]): timestamps are
    ISO-8601 strings on the wire; [notes], [category] and
    [related_transaction_id] are the nullable columns. *)
Module AccountRow.
Record t : Type := mk {
  id : string;
  user_id : string;
  name : string;
  type : string;
  current_balance : number;
  created_at : string
}.
End AccountRow.

Module TransactionRow.
Record t : Type := mk {
  id : number;
  user_id : string;
  account_id : string;
  type : string;
  amount : number;
  weight_change : number;
  notes : nullable string;
  category : nullable string;
  timestamp : string;
  created_at : string;
  related_transaction_id : nullable number
}.
End TransactionRow.

(** [TransactionInsert]: a transaction without [id], [user_id],
    [created_at], and with an optional ISO string for [timestamp]. *)
Module TransactionInsert.
Record t : Type := mk {
  type : TransactionType;
  amount : number;
  weightChange : number;
  notes : optional string;
  account_id : string;
  category : optional string;
  related_transaction_id : optional number;
  timestamp : optional string
}.
End TransactionInsert.

(** [TransactionUpdate = Partial<TransactionInsert>]. *)
Module TransactionUpdate.
Record t : Type := mk {
  type : optional TransactionType;
  amount : optional number;
  weightChange : optional number;
  notes : optional string;
  account_id : optional string;
  category : optional string;
  related_transaction_id : optional number;
  timestamp : optional string
}.
End TransactionUpdate.

(** What the store reads of the auth service's [User] and [Session]. The
    store tests [session?.user], so a session without a user is allowed
    for. *)
Record User : Type := mkUser {
  user_id : string;
  user_email : optional string
}.

Record Session : Type := mkSession {
  access_token : string;
  session_user : option User
}.

(* ================================================================== *)
(** * Mapper functions *)

Section Mappers.

(** [new Date(s).getTime()]: the runtime's date parser, the instant of
    [s] in milliseconds since the epoch (NaN for a string it rejects). *)
Variable Date_getTime : string -> number.

Definition mapAccount (account : AccountRow.t) : Account.t :=
  {| Account.id := AccountRow.id account;
     Account.user_id := AccountRow.user_id account;
     Account.name := AccountRow.name account;
     Account.type := AccountRow.type account;
     Account.current_balance := AccountRow.current_balance account;
     Account.created_at := Date_getTime (AccountRow.created_at account) |}.

Definition mapTransaction (transaction : TransactionRow.t) : Transaction.t :=
  {| Transaction.id := TransactionRow.id transaction;
     Transaction.timestamp :=
       Date_getTime (TransactionRow.timestamp transaction);
     Transaction.type := TransactionRow.type transaction;
     Transaction.amount := TransactionRow.amount transaction;
     Transaction.weightChange := TransactionRow.weight_change transaction;
     Transaction.notes :=
       or_undefined truthy_string (TransactionRow.notes transaction);
     Transaction.account_id := TransactionRow.account_id transaction;
     Transaction.category :=
       or_undefined truthy_string (TransactionRow.category transaction);
     Transaction.user_id := TransactionRow.user_id transaction;
     Transaction.created_at :=
       Date_getTime (TransactionRow.created_at transaction);
     Transaction.related_transaction_id :=
       or_undefined truthy_number
         (TransactionRow.related_transaction_id transaction) |}.

End Mappers.

(* ================================================================== *)
(** * The store and its environment *)

Record AppState : Type := mkAppState {
  session : option Session;
  user : option User;
  isSessionLoading : bool;
  accounts : list Account.t;
  transactions : list Transaction.t;
  isLoading : bool;
  overallNetCash : number;
  weightOnHand : number;
  dollarPerGramRatio : option number
}.

(** The state [create] starts from. *)
Definition initialState : AppState :=
  {| session := None;
     user := None;
     isSessionLoading := true;
     accounts := [];
     transactions := [];
     isLoading := false;
     overallNetCash := 0%float;
     weightOnHand := 0%float;
     dollarPerGramRatio := None |}.

(** An error value: what the client reports in [error], or a rejection. *)
Inductive JsError : Type := mkError (message : string).

(** The row [addTransaction] inserts. *)
Record InsertPayload : Type := mkInsertPayload {
  payload_data : TransactionInsert.t;
  payload_user_id : string;
  payload_timestamp : string
}.

(** The requests the store sends to the backend. *)
Inductive RemoteCall : Type :=
| auth_getSession
| auth_signOut
| select_accounts (uid : string)
| select_transactions (uid : string)
| insert_transaction (row : InsertPayload)
| update_transaction (id : number) (changes : TransactionUpdate.t)
| delete_transaction (id : number).

(** The lines [console.error] writes, one constructor per call site. *)
Inductive LogEntry : Type :=
| Session_check_failed (e : JsError)
| Sign_out_failed (e : JsError)
| Failed_to_fetch_accounts (e : JsError)
| Failed_to_fetch_transactions (e : JsError)
| Failed_to_add_transaction (e : JsError)
| Failed_to_update_transaction (id : number) (e : JsError)
| Failed_to_delete_transaction (id : number) (e : JsError).

Record World : Type := mkWorld {
  store : AppState;
  remote : list RemoteCall;
  console : list LogEntry
}.

(** A promise of the backend once settled. *)
Inductive Settled (A : Type) : Type :=
| Fulfilled (a : A)
| Rejected (e : JsError).
Arguments Fulfilled {A} _.
Arguments Rejected {A} _.

(** The objects the client resolves with. *)
Record SessionResponse : Type := mkSessionResponse {
  response_session : option Session;
  session_error : option JsError
}.

Record Response (Row : Type) : Type := mkResponse {
  data : option (list Row);
  error : option JsError
}.
Arguments mkResponse {Row} _ _.

(** Which of the two requests of a [Promise.all] is answered first. *)
Inductive Arrival : Type := accounts_first | transactions_first.

(* ================================================================== *)
(** * Actions: state, remote calls and exceptions *)

Inductive Completion (A : Type) : Type :=
| Return (a : A)
| Throw (e : JsError).
Arguments Return {A} _.
Arguments Throw {A} _.

Definition Action (A : Type) : Type := World -> Completion A * World.

Definition ret {A} (a : A) : Action A := fun w => (Return a, w).

Definition bind {A B} (c : Action A) (k : A -> Action B) : Action B :=
  fun w =>
    match c w with
    | (Return a, w') => k a w'
    | (Throw e, w') => (Throw e, w')
    end.

Definition throw {A} (e : JsError) : Action A := fun w => (Throw e, w).

Declare Scope action_scope.
Delimit Scope action_scope with action.
Notation "x <- c ;; k" := (bind c (fun x => k))
  (at level 61, c at next level, right associativity) : action_scope.
Notation "c ;; k" := (bind c (fun _ => k))
  (at level 61, right associativity) : action_scope.
Local Open Scope action_scope.

(** [get()] *)
Definition get : Action AppState := fun w => (Return (store w), w).

(** [set(partial)]: the listed fields are replaced, the others kept. *)
Definition set (f : AppState -> AppState) : Action unit :=
  fun w => (Return tt,
            {| store := f (store w); remote := remote w; console := console w |}).

(** Sending a request. *)
Definition send (c : RemoteCall) : Action unit :=
  fun w => (Return tt,
            {| store := store w; remote := remote w ++ [c]; console := console w |}).

(** [console.error(...)] *)
Definition console_error (l : LogEntry) : Action unit :=
  fun w => (Return tt,
            {| store := store w; remote := remote w; console := console w ++ [l] |}).

(** [await p] for a settled [p]. *)
Definition await {A} (p : Settled A) : Action A :=
  match p with
  | Fulfilled a => ret a
  | Rejected e => throw e
  end.

(** [try { body } catch (e) { handler e }] *)
Definition try_catch {A} (body : Action A) (handler : JsError -> Action A)
  : Action A :=
  fun w =>
    match body w with
    | (Return a, w') => (Return a, w')
    | (Throw e, w') => handler e w'
    end.

(** [try { body } finally { fin }]: [fin] runs either way, and the
    completion of [body] stands unless [fin] throws. *)
Definition try_finally {A} (body : Action A) (fin : Action unit) : Action A :=
  fun w =>
    match body w with
    | (r, w') =>
        match fin w' with
        | (Return _, w'') => (r, w'')
        | (Throw e, w'') => (Throw e, w'')
        end
    end.

(** [if (error) throw error;] *)
Definition throw_if (error : option JsError) : Action unit :=
  match error with
  | Some e => throw e
  | None => ret tt
  end.

(** The field updates the actions pass to [set]. *)
Definition with_session (se : option Session) (u : option User) (s : AppState) :=
  {| session := se; user := u;
     isSessionLoading := isSessionLoading s;
     accounts := accounts s; transactions := transactions s;
     isLoading := isLoading s;
     overallNetCash := overallNetCash s; weightOnHand := weightOnHand s;
     dollarPerGramRatio := dollarPerGramRatio s |}.

Definition with_isSessionLoading (b : bool) (s : AppState) :=
  {| session := session s; user := user s;
     isSessionLoading := b;
     accounts := accounts s; transactions := transactions s;
     isLoading := isLoading s;
     overallNetCash := overallNetCash s; weightOnHand := weightOnHand s;
     dollarPerGramRatio := dollarPerGramRatio s |}.

Definition with_accounts (a : list Account.t) (s : AppState) :=
  {| session := session s; user := user s;
     isSessionLoading := isSessionLoading s;
     accounts := a; transactions := transactions s;
     isLoading := isLoading s;
     overallNetCash := overallNetCash s; weightOnHand := weightOnHand s;
     dollarPerGramRatio := dollarPerGramRatio s |}.

Definition with_transactions (t : list Transaction.t) (s : AppState) :=
  {| session := session s; user := user s;
     isSessionLoading := isSessionLoading s;
     accounts := accounts s; transactions := t;
     isLoading := isLoading s;
     overallNetCash := overallNetCash s; weightOnHand := weightOnHand s;
     dollarPerGramRatio := dollarPerGramRatio s |}.

Definition with_isLoading (b : bool) (s : AppState) :=
  {| session := session s; user := user s;
     isSessionLoading := isSessionLoading s;
     accounts := accounts s; transactions := transactions s;
     isLoading := b;
     overallNetCash := overallNetCash s; weightOnHand := weightOnHand s;
     dollarPerGramRatio := dollarPerGramRatio s |}.

Definition with_summaries (n w : number) (r : option number) (s : AppState) :=
  {| session := session s; user := user s;
     isSessionLoading := isSessionLoading s;
     accounts := accounts s; transactions := transactions s;
     isLoading := isLoading s;
     overallNetCash := n; weightOnHand := w;
     dollarPerGramRatio := r |}.

(** [session?.user ?? null] *)
Definition user_of (se : option Session) : option User :=
  match se with
  | Some s => session_user s
  | None => None
  end.

(* ================================================================== *)
(** * The actions of [useAppStore] *)

Section Store.

Variable Date_getTime : string -> number.

(** [new Date().toISOString()] at the time [addTransaction] runs. *)
Variable now : string.

(** ** Summary calculations *)

Definition recalculateSummaries : Action unit :=
  s <- get ;;
  let accounts := accounts s in
  let transactions := transactions s in
  let overallNetCash :=
    reduce (fun sum acc => (sum + Account.current_balance acc)%float)
           0%float accounts in
  let weightOnHand :=
    reduce (fun sum tx => (sum + Transaction.weightChange tx)%float)
           0%float transactions in
  let sales :=
    filter (fun tx => String.eqb (Transaction.type tx) "Sale") transactions in
  let totalSalesAmount :=
    reduce (fun sum tx => (sum + Transaction.amount tx)%float) 0%float sales in
  let totalSalesWeight :=
    reduce (fun sum tx => (sum + abs (Transaction.weightChange tx))%float)
           0%float sales in
  let dollarPerGramRatio :=
    if (0 <? totalSalesWeight)%float
    then Some (totalSalesAmount / totalSalesWeight)%float
    else None in
  set (with_summaries overallNetCash weightOnHand dollarPerGramRatio).

(** ** Auth actions *)

Definition setSession (se : option Session) : Action unit :=
  set (with_session se (user_of se)).

(** ** Data fetching *)

Definition fetchAccounts (p : Settled (Response AccountRow.t)) : Action unit :=
  s <- get ;;
  match user s with
  | None => ret tt
  | Some user =>
      set (with_isLoading true) ;;
      try_finally
        (try_catch
           (send (select_accounts (user_id user)) ;;
            r <- await p ;;
            throw_if (error r) ;;
            let accounts :=
              match data r with
              | Some rows => map (mapAccount Date_getTime) rows
              | None => []
              end in
            set (with_accounts accounts) ;;
            recalculateSummaries)
           (fun e =>
              console_error (Failed_to_fetch_accounts e) ;;
              set (with_accounts [])))
        (set (with_isLoading false))
  end.

Definition fetchTransactions
    (p : Settled (Response TransactionRow.t)) : Action unit :=
  s <- get ;;
  match user s with
  | None => ret tt
  | Some user =>
      set (with_isLoading true) ;;
      try_finally
        (try_catch
           (send (select_transactions (user_id user)) ;;
            r <- await p ;;
            throw_if (error r) ;;
            let transactions :=
              match data r with
              | Some rows => map (mapTransaction Date_getTime) rows
              | None => []
              end in
            set (with_transactions transactions) ;;
            recalculateSummaries)
           (fun e =>
              console_error (Failed_to_fetch_transactions e) ;;
              set (with_transactions [])))
        (set (with_isLoading false))
  end.

(** ** The two fetches started together

    An [async] action runs up to its [await] when it is called, and the
    rest when the awaited promise settles. For
    [Promise.all([get().fetchAccounts(), get().fetchTransactions()])] each
    fetch is cut at its [await]: both run their first part, in this
    order, and their second parts run in the order of the answers.
    [fetchAccounts_in_two_parts] and [fetchTransactions_in_two_parts]
    show that the two parts of a fetch, run one after the other, are the
    fetch. *)

(** Up to the [await]: [None] when the action has returned for want of a
    user, [Some user] when the request is on its way. *)
Definition fetchAccounts_request : Action (option User) :=
  s <- get ;;
  match user s with
  | None => ret None
  | Some user =>
      set (with_isLoading true) ;;
      send (select_accounts (user_id user)) ;;
      ret (Some user)
  end.

(** From the [await] on. *)
Definition fetchAccounts_settle
    (p : Settled (Response AccountRow.t)) : Action unit :=
  try_finally
    (try_catch
       (r <- await p ;;
        throw_if (error r) ;;
        let accounts :=
          match data r with
          | Some rows => map (mapAccount Date_getTime) rows
          | None => []
          end in
        set (with_accounts accounts) ;;
        recalculateSummaries)
       (fun e =>
          console_error (Failed_to_fetch_accounts e) ;;
          set (with_accounts [])))
    (set (with_isLoading false)).

Definition fetchTransactions_request : Action (option User) :=
  s <- get ;;
  match user s with
  | None => ret None
  | Some user =>
      set (with_isLoading true) ;;
      send (select_transactions (user_id user)) ;;
      ret (Some user)
  end.

Definition fetchTransactions_settle
    (p : Settled (Response TransactionRow.t)) : Action unit :=
  try_finally
    (try_catch
       (r <- await p ;;
        throw_if (error r) ;;
        let transactions :=
          match data r with
          | Some rows => map (mapTransaction Date_getTime) rows
          | None => []
          end in
        set (with_transactions transactions) ;;
        recalculateSummaries)
       (fun e =>
          console_error (Failed_to_fetch_transactions e) ;;
          set (with_transactions [])))
    (set (with_isLoading false)).

(** What the backend does with the two requests. *)
Record Refetch : Type := mkRefetch {
  accounts_answer : Settled (Response AccountRow.t);
  transactions_answer : Settled (Response TransactionRow.t);
  arrival : Arrival
}.

Definition settle_accounts (pending : option User) (f : Refetch) : Action unit :=
  match pending with
  | None => ret tt
  | Some _ => fetchAccounts_settle (accounts_answer f)
  end.

Definition settle_transactions (pending : option User) (f : Refetch)
  : Action unit :=
  match pending with
  | None => ret tt
  | Some _ => fetchTransactions_settle (transactions_answer f)
  end.

(** [await Promise.all([get().fetchAccounts(), get().fetchTransactions()])].
    Neither fetch throws ([fetch_both_returns]), so the joint promise is
    never rejected. *)
Definition fetch_both (f : Refetch) : Action unit :=
  pa <- fetchAccounts_request ;;
  pt <- fetchTransactions_request ;;
  match arrival f with
  | accounts_first => settle_accounts pa f ;; settle_transactions pt f
  | transactions_first => settle_transactions pt f ;; settle_accounts pa f
  end.

(** ** Session *)

Definition checkSession (p : Settled SessionResponse) (f : Refetch)
  : Action unit :=
  set (with_isSessionLoading true) ;;
  try_finally
    (try_catch
       (send auth_getSession ;;
        r <- await p ;;
        let session := response_session r in
        throw_if (session_error r) ;;
        set (with_session session (user_of session)) ;;
        match user_of session with
        | Some _ => fetch_both f
        | None =>
            set (fun s => with_transactions [] (with_accounts [] s))
        end)
       (fun e => console_error (Session_check_failed e)))
    (set (with_isSessionLoading false)).

Definition signOut (p : Settled (option JsError)) : Action unit :=
  try_catch
    (send auth_signOut ;;
     error <- await p ;;
     throw_if error ;;
     set (fun s =>
            with_transactions [] (with_accounts [] (with_session None None s))))
    (fun e => console_error (Sign_out_failed e)).

(** [signOut] cut at its [await] ([signOut_in_two_parts]). The auth
    client calls the listener of [onAuthStateChange] on its own schedule,
    possibly between the two parts. *)
Definition signOut_request : Action unit :=
  send auth_signOut.

Definition signOut_settle (p : Settled (option JsError)) : Action unit :=
  try_catch
    (error <- await p ;;
     throw_if error ;;
     set (fun s =>
            with_transactions [] (with_accounts [] (with_session None None s))))
    (fun e => console_error (Sign_out_failed e)).

(** ** Data mutations *)

(** [transactionData.timestamp || new Date().toISOString()] *)
Definition timestamp_or_now (t : optional string) : string :=
  match t with
  | defined s => if truthy_string s then s else now
  | undefined => now
  end.

Definition addTransaction (transactionData : TransactionInsert.t)
    (p : Settled (option JsError)) (f : Refetch) : Action bool :=
  s <- get ;;
  match user s with
  | None => ret false
  | Some u =>
      set (with_isLoading true) ;;
      try_finally
        (try_catch
           (send (insert_transaction
                    {| payload_data := transactionData;
                       payload_user_id := user_id u;
                       payload_timestamp :=
                         timestamp_or_now
                           (TransactionInsert.timestamp transactionData) |}) ;;
            error <- await p ;;
            throw_if error ;;
            fetch_both f ;;
            ret true)
           (fun e =>
              console_error (Failed_to_add_transaction e) ;;
              ret false))
        (set (with_isLoading false))
  end.

Definition updateTransaction (id : number) (changes : TransactionUpdate.t)
    (p : Settled (option JsError)) (f : Refetch) : Action bool :=
  set (with_isLoading true) ;;
  try_finally
    (try_catch
       (send (update_transaction id changes) ;;
        error <- await p ;;
        throw_if error ;;
        fetch_both f ;;
        ret true)
       (fun e =>
          console_error (Failed_to_update_transaction id e) ;;
          ret false))
    (set (with_isLoading false)).

Definition deleteTransaction (id : number)
    (p : Settled (option JsError)) (f : Refetch) : Action bool :=
  set (with_isLoading true) ;;
  try_finally
    (try_catch
       (send (delete_transaction id) ;;
        error <- await p ;;
        throw_if error ;;
        fetch_both f ;;
        ret true)
       (fun e =>
          console_error (Failed_to_delete_transaction id e) ;;
          ret false))
    (set (with_isLoading false)).

(** ** The auth listener registered with [onAuthStateChange] *)

Inductive AuthEvent : Type :=
| SIGNED_IN
| SIGNED_OUT
| other_event (name : string).

(** The fetches of [SIGNED_IN] are started and not awaited; they are
    resumed when the backend answers, here at once. *)
Definition onAuthStateChange (event : AuthEvent) (se : option Session)
    (f : Refetch) : Action unit :=
  setSession se ;;
  match event with
  | SIGNED_IN => fetch_both f
  | SIGNED_OUT => recalculateSummaries
  | other_event _ => ret tt
  end.

End Store.

(* ================================================================== *)
(** * Running an action *)

Definition completion {A} (a : Action A) (w : World) : Completion A := fst (a w).
Definition after {A} (a : Action A) (w : World) : World := snd (a w).

(** A store with nothing sent and nothing logged yet. *)
Definition world_of (s : AppState) : World :=
  {| store := s; remote := []; console := [] |}.

(** The summaries a store shows. *)
Definition summaries (s : AppState) : number * number * option number :=
  (overallNetCash s, weightOnHand s, dollarPerGramRatio s).

(** The summaries of [s] are those a recalculation over its collections
    gives: running [recalculateSummaries] changes nothing. *)
Definition summaries_fresh (s : AppState) : Prop :=
  store (after recalculateSummaries (world_of s)) = s.

(** The action returns whatever the world it starts in: no exception
    reaches its caller. *)
Definition never_throws {A} (c : Action A) : Prop :=
  forall w : World, exists a : A, completion c w = Return a.

(** The store after a recalculation. *)
Definition recalculated (s : AppState) : AppState :=
  store (after recalculateSummaries (world_of s)).

(** How a request failed, if it did: the promise was rejected, or it
    resolved with an [error]. *)
Definition select_failure {Row} (p : Settled (Response Row)) : option JsError :=
  match p with
  | Rejected e => Some e
  | Fulfilled r => error r
  end.

Definition call_failure (p : Settled (option JsError)) : option JsError :=
  match p with
  | Rejected e => Some e
  | Fulfilled error => error
  end.

Definition session_failure (p : Settled SessionResponse) : option JsError :=
  match p with
  | Rejected e => Some e
  | Fulfilled r => session_error r
  end.

(** The session of an answer to [getSession]. *)
Definition session_of (p : Settled SessionResponse) : option Session :=
  match p with
  | Fulfilled r => response_session r
  | Rejected _ => None
  end.

(** The rows of an answer: [data || []]. *)
Definition rows_of {Row} (p : Settled (Response Row)) : list Row :=
  match p with
  | Fulfilled r => match data r with Some rows => rows | None => [] end
  | Rejected _ => []
  end.

Definition balances (l : list Account.t) : list number :=
  map Account.current_balance l.

Definition weightChanges (l : list Transaction.t) : list number :=
  map Transaction.weightChange l.

Definition is_sale (tx : Transaction.t) : bool :=
  String.eqb (Transaction.type tx) "Sale".

Definition sales_of (l : list Transaction.t) : list Transaction.t :=
  filter is_sale l.

Definition sale_amounts (l : list Transaction.t) : list number :=
  map Transaction.amount (sales_of l).

Definition sale_weights (l : list Transaction.t) : list number :=
  map (fun tx => abs (Transaction.weightChange tx)) (sales_of l).

(* ================================================================== *)
(** * Example ledgers *)

Definition account_of (name : string) (balance : number) : Account.t :=
  {| Account.id := name; Account.user_id := "user-1"; Account.name := name;
     Account.type := "Bank"; Account.current_balance := balance;
     Account.created_at := 0%float |}.

Definition transaction_of (id : number) (type : TransactionType)
    (amount weightChange : number) : Transaction.t :=
  {| Transaction.id := id; Transaction.timestamp := 0%float;
     Transaction.type := type; Transaction.amount := amount;
     Transaction.weightChange := weightChange;
     Transaction.notes := undefined; Transaction.account_id := "cash";
     Transaction.category := undefined; Transaction.user_id := "user-1";
     Transaction.created_at := 0%float;
     Transaction.related_transaction_id := undefined |}.

Definition alice : User := {| user_id := "user-1"; user_email := undefined |}.

Definition alice_session : Session :=
  {| access_token := "token"; session_user := Some alice |}.

(** A signed-in store holding the given collections, summaries not yet
    computed. *)
Definition ledger (accs : list Account.t) (txs : list Transaction.t) : World :=
  world_of
    {| session := Some alice_session; user := Some alice;
       isSessionLoading := false;
       accounts := accs; transactions := txs;
       isLoading := false;
       overallNetCash := 0%float; weightOnHand := 0%float;
       dollarPerGramRatio := None |}.

(** Scenario A of the spec: balances 100 and -25.50. *)
Definition scenario_A : list Account.t :=
  [account_of "Chime" 100%float; account_of "PayPal" (-25.5)%float].

(** Scenario B of the spec: a sale of 5 and a purchase of 10. *)
Definition scenario_B : list Transaction.t :=
  [transaction_of 1%float "Sale" 50%float (-5)%float;
   transaction_of 2%float "Purchase" (-20)%float 10%float].

(** Three accounts holding 0.10, 0.20 and 0.30. *)
Definition dimes : list Account.t :=
  [account_of "Cash" 0.1%float; account_of "CashApp" 0.2%float;
   account_of "Chime" 0.3%float].

(** 0.1 and 0.2 received, 0.3 dispensed. *)
Definition decigrams : list Transaction.t :=
  [transaction_of 1%float "Purchase" (-1)%float 0.1%float;
   transaction_of 2%float "Purchase" (-2)%float 0.2%float;
   transaction_of 3%float "Sale" 6%float (-0.3)%float].

(** Scenarios A and B in a signed-in store whose summaries are fresh:
    net cash 74.50, weight on hand 5, ratio 10. *)
Definition signed_in : World :=
  after recalculateSummaries (ledger scenario_A scenario_B).

(** A date parser that knows one string, for the examples. *)
Definition one_second : string := "1970-01-01T00:00:01.000Z".

Definition epoch_getTime (s : string) : number :=
  if String.eqb s one_second then 1000%float else nan.

Definition noon : string := "2025-05-01T12:00:00.000Z".

Definition network_down : JsError := mkError "Failed to fetch".

(** The client answers with no error. *)
Definition done : Settled (option JsError) := Fulfilled None.

(** A sale to insert. *)
Definition a_sale : TransactionInsert.t :=
  {| TransactionInsert.type := "Sale";
     TransactionInsert.amount := 30%float;
     TransactionInsert.weightChange := (-3)%float;
     TransactionInsert.notes := undefined;
     TransactionInsert.account_id := "Chime";
     TransactionInsert.category := undefined;
     TransactionInsert.related_transaction_id := undefined;
     TransactionInsert.timestamp := undefined |}.

Definition a_change : TransactionUpdate.t :=
  {| TransactionUpdate.type := undefined;
     TransactionUpdate.amount := defined 35%float;
     TransactionUpdate.weightChange := undefined;
     TransactionUpdate.notes := undefined;
     TransactionUpdate.account_id := undefined;
     TransactionUpdate.category := undefined;
     TransactionUpdate.related_transaction_id := undefined;
     TransactionUpdate.timestamp := undefined |}.

(** Wire rows. *)
Definition chime_row : AccountRow.t :=
  {| AccountRow.id := "Chime"; AccountRow.user_id := "user-1";
     AccountRow.name := "Chime"; AccountRow.type := "Bank";
     AccountRow.current_balance := 130%float;
     AccountRow.created_at := one_second |}.

Definition sale_row (notes category : nullable string)
    (related : nullable number) : TransactionRow.t :=
  {| TransactionRow.id := 3%float; TransactionRow.user_id := "user-1";
     TransactionRow.account_id := "Chime"; TransactionRow.type := "Sale";
     TransactionRow.amount := 30%float;
     TransactionRow.weight_change := (-3)%float;
     TransactionRow.notes := notes; TransactionRow.category := category;
     TransactionRow.timestamp := one_second;
     TransactionRow.created_at := one_second;
     TransactionRow.related_transaction_id := related |}.

Definition rows {Row} (l : list Row) : Settled (Response Row) :=
  Fulfilled {| data := Some l; error := None |}.

(** Both selects answered, accounts first. *)
Definition refetch_ok : Refetch :=
  {| accounts_answer := rows [chime_row];
     transactions_answer := rows [sale_row null null null];
     arrival := accounts_first |}.

(** The accounts answered, then the select of the transactions rejected. *)
Definition refetch_transactions_lost : Refetch :=
  {| accounts_answer := rows [chime_row];
     transactions_answer := Rejected network_down;
     arrival := accounts_first |}.

(** [getSession] finds no session. *)
Definition no_session : Settled SessionResponse :=
  Fulfilled {| response_session := None; session_error := None |}.

(* ================================================================== *)
(** * Net cash and weight on hand *)

(** The net cash is the exact sum of the balances, however the accounts
    are ordered. *)
Definition overallNetCash_exact_in_any_order (w : World) : Prop :=
  forall v : World,
    Permutation (accounts (store w)) (accounts (store v)) ->
    represents (overallNetCash (store (after recalculateSummaries v)))
               (exact_sum (balances (accounts (store w)))).

(** The weight on hand is the exact sum of the weight changes. *)
Definition weightOnHand_exact (w : World) : Prop :=
  represents (weightOnHand (store (after recalculateSummaries w)))
             (exact_sum (weightChanges (transactions (store w)))).

(* ================================================================== *)
(** * Numbers that are zero, positive or +Infinity

    The total of the absolute weight changes is such a number, which is
    why testing it with [> 0] is testing that it is not zero. *)

Definition SFnonneg (x : spec_float) : bool :=
  match x with
  | S754_zero _ => true
  | S754_infinity s => negb s
  | S754_finite s _ _ => negb s
  | S754_nan => false
  end.

Definition nonneg (x : number) : bool := SFnonneg (Prim2SF x).

(** Positive or +Infinity. *)
Definition SFpos (x : spec_float) : bool :=
  match x with
  | S754_infinity s => negb s
  | S754_finite s _ _ => negb s
  | S754_zero _ | S754_nan => false
  end.

(** The exponent of a finite number is not below the least one. *)
Definition SFabove_emin (prec emax : Z) (x : spec_float) : Prop :=
  match x with
  | S754_finite _ _ e => (SpecFloat.emin prec emax <= e)%Z
  | _ => True
  end.

(** [x === 0], of either sign. *)
Definition is_zero (x : number) : bool := (x =? 0)%float.

(* ================================================================== *)
(** * The ratio *)

(** No sale carries NaN as its weight change. Rows come from JSON, which
    has no notation for NaN. *)
Definition sale_weights_are_numbers (txs : list Transaction.t) : Prop :=
  forall tx, In tx txs -> is_sale tx = true ->
             isNaN (Transaction.weightChange tx) = false.

(** The collections of [w'] are those of [w], or empty, or the mapped rows
    of the answers [pa] and [pt]: nothing else was put in them. *)
Definition collections_from (Date_getTime : string -> number)
    (pa : Settled (Response AccountRow.t))
    (pt : Settled (Response TransactionRow.t)) (w w' : World) : Prop :=
  (accounts (store w') = accounts (store w)
   \/ accounts (store w') = []
   \/ accounts (store w') = map (mapAccount Date_getTime) (rows_of pa))
  /\ (transactions (store w') = transactions (store w)
      \/ transactions (store w') = []
      \/ transactions (store w') = map (mapTransaction Date_getTime) (rows_of pt)).

(* ================================================================== *)
(** * The dashboard ([src/App.tsx]) *)

Module App.

(** [s || d] for strings. *)
Definition or_string (s d : string) : string :=
  if truthy_string s then s else d.

(** [s || undefined] for a string. *)
Definition or_absent (s : string) : optional string :=
  if truthy_string s then defined s else undefined.

Definition getRatingClass (rating : option number) : string :=
  match rating with
  | None => "text-ratio-nodata"
  | Some rating =>
      if (10 <=? rating)%float then "text-ratio-good"
      else if (5 <=? rating)%float then "text-ratio-ok"
      else "text-ratio-poor"
  end.

(** The state of the transaction form. *)
Record TransactionForm : Type := mkTransactionForm {
  formType : TransactionType;
  amountInput : string;
  weightInput : string;
  notesInput : string;
  selectedAccountId : string;
  selectedCategory : string;
  isEditingTransaction : nullable number
}.

(** What a handler leaves behind: the state of the form once its updates
    are applied, the messages shown with [alert], the store and its
    environment, and how the handler completed. *)
Record Handled (S : Type) : Type := mkHandled {
  ui : S;
  alerts : list string;
  world : World;
  completed : Completion unit
}.

(** [alert(text); return;] *)
Definition alert_and_return {S} (text : string) (s : S) (w : World) : Handled S :=
  {| ui := s; alerts := [text]; world := w; completed := Return tt |}.

(** The data the form passes to [addTransaction]: [related_transaction_id]
    and [timestamp] are not among its keys. *)
Definition as_insert (type : TransactionType) (amount weightChange : number)
    (notes : optional string) (account_id category : string)
  : TransactionInsert.t :=
  {| TransactionInsert.type := type;
     TransactionInsert.amount := amount;
     TransactionInsert.weightChange := weightChange;
     TransactionInsert.notes := notes;
     TransactionInsert.account_id := account_id;
     TransactionInsert.category := defined category;
     TransactionInsert.related_transaction_id := undefined;
     TransactionInsert.timestamp := undefined |}.

(** The same data passed to [updateTransaction]. *)
Definition as_update (type : TransactionType) (amount weightChange : number)
    (notes : optional string) (account_id category : string)
  : TransactionUpdate.t :=
  {| TransactionUpdate.type := defined type;
     TransactionUpdate.amount := defined amount;
     TransactionUpdate.weightChange := defined weightChange;
     TransactionUpdate.notes := notes;
     TransactionUpdate.account_id := defined account_id;
     TransactionUpdate.category := defined category;
     TransactionUpdate.related_transaction_id := undefined;
     TransactionUpdate.timestamp := undefined |}.

(** [accounts] is the collection the component rendered with. *)
Definition clearTransactionForm (accounts : list Account.t) : TransactionForm :=
  {| formType := "Sale";
     amountInput := "";
     weightInput := "";
     notesInput := "";
     selectedAccountId :=
       match accounts with
       | acc :: _ => Account.id acc
       | [] => ""
       end;
     selectedCategory := "Personal";
     isEditingTransaction := null |}.

Section Handlers.

Variable Date_getTime : string -> number.
Variable now : string.

(** [parseFloat] and [String] on numbers, of the runtime. *)
Variable parseFloat : string -> number.
Variable String_of_number : number -> string.

Definition handleEditTransaction (tx : Transaction.t) : TransactionForm :=
  {| isEditingTransaction := value (Transaction.id tx);
     formType := Transaction.type tx;
     amountInput := String_of_number (abs (Transaction.amount tx));
     weightInput := String_of_number (abs (Transaction.weightChange tx));
     notesInput :=
       match Transaction.notes tx with
       | defined s => or_string s ""
       | undefined => ""
       end;
     selectedAccountId := Transaction.account_id tx;
     selectedCategory :=
       match Transaction.category tx with
       | defined s => or_string s "Personal"
       | undefined => "Personal"
       end |}.

Definition handleSubmitTransaction (accounts : list Account.t)
    (form : TransactionForm) (p : Settled (option JsError)) (f : Refetch)
    (w : World) : Handled TransactionForm :=
  let amount := parseFloat (or_string (amountInput form) "0") in
  let weight := parseFloat (or_string (weightInput form) "0") in
  if negb (truthy_string (selectedAccountId form)) then
    alert_and_return "Please select an account." form w
  else if isNaN amount
          || (negb (String.eqb (formType form) "Expense") && isNaN weight) then
    alert_and_return "Please enter valid numbers for amount and weight." form w
  else if (amount =? 0)%float && (weight =? 0)%float
          && negb (String.eqb (formType form) "Expense") then
    alert_and_return "Amount and weight cannot both be zero." form w
  else if String.eqb (formType form) "Expense" && (amount =? 0)%float then
    alert_and_return "Expense amount cannot be zero." form w
  else
    let type := formType form in
    let amount' :=
      if String.eqb (formType form) "Purchase"
         || String.eqb (formType form) "Expense"
      then (- abs amount)%float
      else abs amount in
    let weightChange :=
      if String.eqb (formType form) "Purchase" then abs weight
      else if String.eqb (formType form) "Sale" then (- abs weight)%float
      else 0%float in
    let notes := or_absent (notesInput form) in
    let account_id := selectedAccountId form in
    let category := selectedCategory form in
    let '(success, w') :=
      match isEditingTransaction form with
      | value id =>
          if truthy_number id then
            updateTransaction Date_getTime id
              (as_update type amount' weightChange notes account_id category)
              p f w
          else
            addTransaction Date_getTime now
              (as_insert type amount' weightChange notes account_id category)
              p f w
      | null =>
          addTransaction Date_getTime now
            (as_insert type amount' weightChange notes account_id category)
            p f w
      end in
    match success with
    | Return true =>
        {| ui := clearTransactionForm accounts; alerts := [];
           world := w'; completed := Return tt |}
    | Return false =>
        {| ui := form; alerts := []; world := w'; completed := Return tt |}
    | Throw e =>
        {| ui := form; alerts := []; world := w'; completed := Throw e |}
    end.

(** The end of [handleSubmitTransaction], from [const transactionData] on,
    for the amount and the weight read from the form. *)
Definition pass_to_store (accounts : list Account.t)
    (form : TransactionForm) (amount weight : number)
    (p : Settled (option JsError)) (f : Refetch) (w : World)
  : Handled TransactionForm :=
  let type := formType form in
  let amount' :=
    if String.eqb (formType form) "Purchase"
       || String.eqb (formType form) "Expense"
    then (- abs amount)%float
    else abs amount in
  let weightChange :=
    if String.eqb (formType form) "Purchase" then abs weight
    else if String.eqb (formType form) "Sale" then (- abs weight)%float
    else 0%float in
  let notes := or_absent (notesInput form) in
  let account_id := selectedAccountId form in
  let category := selectedCategory form in
  let '(success, w') :=
    match isEditingTransaction form with
    | value id =>
        if truthy_number id then
          updateTransaction Date_getTime id
            (as_update type amount' weightChange notes account_id category)
            p f w
        else
          addTransaction Date_getTime now
            (as_insert type amount' weightChange notes account_id category)
            p f w
    | null =>
        addTransaction Date_getTime now
          (as_insert type amount' weightChange notes account_id category)
          p f w
    end in
  match success with
  | Return true =>
      {| ui := clearTransactionForm accounts; alerts := [];
         world := w'; completed := Return tt |}
  | Return false =>
      {| ui := form; alerts := []; world := w'; completed := Return tt |}
  | Throw e =>
      {| ui := form; alerts := []; world := w'; completed := Throw e |}
  end.

End Handlers.

(** ** The account form

    [AppState] declares [addAccount], [updateAccount] and [deleteAccount],
    and the component takes them from the hook, but the object [create]
    builds in [src/store.ts] has no such property: each is [undefined],
    and calling it throws a [TypeError]. *)

Definition not_a_function {A} (name : string) : Action A :=
  throw (mkError (name ++ " is not a function")).

Record AccountFormData : Type := mkAccountFormData {
  name : string;
  type : string;
  current_balance : string
}.

Record AccountForm : Type := mkAccountForm {
  showAccountForm : bool;
  accountFormData : AccountFormData;
  editingAccountId : nullable string
}.

(** [Omit<Account, "id" | "user_id" | "created_at">] *)
Record AccountData : Type := mkAccountData {
  data_name : string;
  data_type : string;
  data_current_balance : number
}.

Definition addAccount (account : AccountData) : Action bool :=
  not_a_function "addAccount".

Definition updateAccount (id : string) (changes : AccountData) : Action bool :=
  not_a_function "updateAccount".

Definition deleteAccount (id : string) : Action bool :=
  not_a_function "deleteAccount".

Section AccountHandlers.

Variable parseFloat : string -> number.

(** [x || 0] for a number. *)
Definition or_zero (x : number) : number :=
  if truthy_number x then x else 0%float.

Definition handleAccountSubmit (form : AccountForm) (w : World)
  : Handled AccountForm :=
  let accountData :=
    {| data_name := name (accountFormData form);
       data_type := type (accountFormData form);
       data_current_balance :=
         or_zero (parseFloat (current_balance (accountFormData form))) |} in
  let '(r, w') :=
    match editingAccountId form with
    | value id =>
        if truthy_string id then updateAccount id accountData w
        else addAccount accountData w
    | null => addAccount accountData w
    end in
  match r with
  | Return _ =>
      {| ui := {| showAccountForm := false;
                  accountFormData :=
                    {| name := ""; type := "Bank"; current_balance := "" |};
                  editingAccountId := null |};
         alerts := []; world := w'; completed := Return tt |}
  | Throw e =>
      {| ui := form; alerts := []; world := w'; completed := Throw e |}
  end.

(** [confirmed] is the answer to [window.confirm]. *)
Definition handleDeleteAccount (confirmed : bool) (id : string)
    (form : AccountForm) (w : World) : Handled AccountForm :=
  if confirmed then
    let '(r, w') := deleteAccount id w in
    match r with
    | Return _ =>
        {| ui := form; alerts := []; world := w'; completed := Return tt |}
    | Throw e =>
        {| ui := form; alerts := []; world := w'; completed := Throw e |}
    end
  else {| ui := form; alerts := []; world := w; completed := Return tt |}.

End AccountHandlers.

End App.

(* ================================================================== *)
(** * The root component ([src/main.tsx]) *)

Inductive View : Type :=
| Verifying_session
| App_component
| AuthForm_component.

Definition Root (s : AppState) : View :=
  if isSessionLoading s then Verifying_session
  else match session s with
       | Some _ => App_component
       | None => AuthForm_component
       end.

(* ================================================================== *)
(** * The sign-in form ([src/components/AuthForm.tsx]) *)

Module AuthForm.

(** What the user types is a JavaScript string: a sequence of UTF-16 code
    units. *)
Definition text := list N.

Definition text_of_string (s : string) : text :=
  map Ascii.N_of_ascii (list_ascii_of_string s).

(** [\s]: the white space and line terminators of ECMAScript. *)
Definition is_whitespace (c : N) : bool :=
  ((c =? 9) || (c =? 10) || (c =? 11) || (c =? 12) || (c =? 13)
   || (c =? 32) || (c =? 160) || (c =? 5760)
   || ((8192 <=? c) && (c <=? 8202))
   || (c =? 8232) || (c =? 8233) || (c =? 8239) || (c =? 8287)
   || (c =? 12288) || (c =? 65279))%N.

Definition commercial_at : N := 64.
Definition full_stop : N := 46.

(** [[^\s@]] *)
Definition not_space_or_at (c : N) : bool :=
  negb (is_whitespace c || (c =? commercial_at)%N).

(** [cls+] followed by [k]: one or more code units of the class, then
    the rest of the pattern. *)
Fixpoint one_or_more (cls : N -> bool) (k : text -> bool) (s : text) : bool :=
  match s with
  | [] => false
  | c :: r => cls c && (one_or_more cls k r || k r)
  end.

(** A literal code unit followed by [k]. *)
Definition literal (c : N) (k : text -> bool) (s : text) : bool :=
  match s with
  | [] => false
  | c' :: r => (c' =? c)%N && k r
  end.

(** [$] *)
Definition end_of_input (s : text) : bool :=
  match s with
  | [] => true
  | _ :: _ => false
  end.

(** [/^[^\s@]+@[^\s@]+\.[^\s@]+$/.test(email)] *)
Definition emailRegex_test (email : text) : bool :=
  one_or_more not_space_or_at
    (literal commercial_at
       (one_or_more not_space_or_at
          (literal full_stop
             (one_or_more not_space_or_at end_of_input))))
    email.

Record ValidationErrors : Type := mkValidationErrors {
  email_error : optional string;
  password_error : optional string
}.

Definition no_errors : ValidationErrors :=
  {| email_error := undefined; password_error := undefined |}.

Inductive MessageType : Type := success | error.

Record Message : Type := mkMessage {
  message_type : MessageType;
  message_text : string
}.

Record State : Type := mkState {
  isSignUp : bool;
  email : text;
  password : text;
  loading : bool;
  message : nullable Message;
  showPassword : bool;
  validationErrors : ValidationErrors
}.

(** The requests the form sends to the auth service. *)
Inductive AuthCall : Type :=
| signUp (email password : text)
| signInWithPassword (email password : text)
| signInWithOAuth (provider : string).

Record Handled : Type := mkHandled {
  state : State;
  calls : list AuthCall;
  completed : Completion unit
}.

(** The errors [validateForm] finds. *)
Definition validation_errors (st : State) : ValidationErrors :=
  {| email_error :=
       if negb (emailRegex_test (email st))
       then defined "Please enter a valid email address."
       else undefined;
     password_error :=
       match password st with
       | [] => defined "Password cannot be empty."
       | _ :: _ =>
           if isSignUp st && (List.length (password st) <? 6)%nat
           then defined "Password must be at least 6 characters long."
           else undefined
       end |}.

(** [Object.keys(errors).length === 0] *)
Definition has_no_keys (errors : ValidationErrors) : bool :=
  match email_error errors, password_error errors with
  | undefined, undefined => true
  | _, _ => false
  end.

Definition with_validationErrors (errors : ValidationErrors) (st : State) : State :=
  {| isSignUp := isSignUp st; email := email st; password := password st;
     loading := loading st; message := message st;
     showPassword := showPassword st; validationErrors := errors |}.

Definition with_message (m : nullable Message) (st : State) : State :=
  {| isSignUp := isSignUp st; email := email st; password := password st;
     loading := loading st; message := m;
     showPassword := showPassword st;
     validationErrors := validationErrors st |}.

Definition with_loading (b : bool) (st : State) : State :=
  {| isSignUp := isSignUp st; email := email st; password := password st;
     loading := b; message := message st;
     showPassword := showPassword st;
     validationErrors := validationErrors st |}.

Definition with_credentials (e p : text) (st : State) : State :=
  {| isSignUp := isSignUp st; email := e; password := p;
     loading := loading st; message := message st;
     showPassword := showPassword st;
     validationErrors := validationErrors st |}.

(** [validateForm()]: records the errors and tells whether there are
    none. *)
Definition validateForm (st : State) : bool * State :=
  let errors := validation_errors st in
  (has_no_keys errors, with_validationErrors errors st).

(** [error.message || fallback] *)
Definition message_or (e : JsError) (fallback : string) : string :=
  match e with
  | mkError m => if truthy_string m then m else fallback
  end.

Definition handleAuth (p : Settled (option JsError)) (st : State) : Handled :=
  let st := with_message null st in
  let st := with_validationErrors no_errors st in
  let '(valid, st) := validateForm st in
  if negb valid then {| state := st; calls := []; completed := Return tt |}
  else
    let st := with_loading true st in
    let call :=
      if isSignUp st then signUp (email st) (password st)
      else signInWithPassword (email st) (password st) in
    let failed (e : JsError) : State :=
      with_message
        (value {| message_type := error;
                  message_text :=
                    message_or e "Authentication failed. Please try again." |})
        st in
    let st :=
      match p with
      | Rejected e => failed e
      | Fulfilled (Some e) => failed e
      | Fulfilled None =>
          if isSignUp st then
            with_credentials [] []
              (with_message
                 (value {| message_type := success;
                           message_text :=
                             "Check your email to verify your account!" |})
                 st)
          else st
      end in
    {| state := with_loading false st; calls := [call];
       completed := Return tt |}.

(** [`Error signing in with ${provider}: ${error.message}`] *)
Definition oauth_error_text (provider : string) (e : JsError) : string :=
  match e with
  | mkError m => "Error signing in with " ++ provider ++ ": " ++ m
  end.

Definition handleOAuthSignIn (provider : string) (p : Settled (option JsError))
    (st : State) : Handled :=
  let st := with_message null st in
  let st := with_loading true st in
  match p with
  | Rejected e =>
      {| state := st; calls := [signInWithOAuth provider];
         completed := Throw e |}
  | Fulfilled (Some e) =>
      {| state :=
           with_loading false
             (with_message
                (value {| message_type := error;
                          message_text := oauth_error_text provider e |})
                st);
         calls := [signInWithOAuth provider];
         completed := Return tt |}
  | Fulfilled None =>
      {| state := st; calls := [signInWithOAuth provider];
         completed := Return tt |}
  end.

Definition toggleAuthMode (st : State) : State :=
  {| isSignUp := negb (isSignUp st); email := email st; password := password st;
     loading := loading st; message := null;
     showPassword := showPassword st; validationErrors := no_errors |}.

End AuthForm.

(* ================================================================== *)
(** * Example forms *)

(** [parseFloat] on the strings of the examples. *)
Definition example_parseFloat (s : string) : number :=
  if String.eqb s "0" then 0%float
  else if String.eqb s "5" then 5%float
  else if String.eqb s "-50" then (-50)%float
  else nan.

(** A sale of 5 for 50, typed with a minus sign. *)
Definition sale_form : App.TransactionForm :=
  {| App.formType := "Sale";
     App.amountInput := "-50";
     App.weightInput := "5";
     App.notesInput := "";
     App.selectedAccountId := "Chime";
     App.selectedCategory := "Business";
     App.isEditingTransaction := null |}.

Definition sign_in_form (email password : string) : AuthForm.State :=
  {| AuthForm.isSignUp := false;
     AuthForm.email := AuthForm.text_of_string email;
     AuthForm.password := AuthForm.text_of_string password;
     AuthForm.loading := false;
     AuthForm.message := null;
     AuthForm.showPassword := false;
     AuthForm.validationErrors := AuthForm.no_errors |}.

(* ================================================================== *)
(** * Sums *)

Lemma reduce_ieee_sum_from {A} (g : A -> number) (l : list A) (acc : number) :
  reduce (fun sum a => (sum + g a)%float) acc l = ieee_sum_from acc (map g l).
Proof.
  unfold reduce. revert acc.
  induction l as [|a l IH]; intros acc; simpl; [reflexivity | apply IH].
Qed.

Lemma reduce_ieee_sum {A} (g : A -> number) (l : list A) :
  reduce (fun sum a => (sum + g a)%float) 0%float l = ieee_sum (map g l).
Proof. apply reduce_ieee_sum_from. Qed.

Lemma exact_sum_cons (x : number) (l : list number) :
  exact_sum (x :: l) = (exactQ x + exact_sum l)%Q.
Proof. reflexivity. Qed.

Lemma exact_sum_Permutation (l l' : list number) :
  Permutation l l' -> (exact_sum l == exact_sum l')%Q.
Proof.
  induction 1 as [|x l l' _ IH|x y l|l l' l'' _ IH1 _ IH2].
  - reflexivity.
  - rewrite !exact_sum_cons, IH. reflexivity.
  - rewrite !exact_sum_cons. ring.
  - rewrite IH1. exact IH2.
Qed.

Lemma add_is_exact_represents (a x : number) (q : Q) :
  add_is_exact a x = true ->
  represents a q ->
  represents (a + x)%float (q + exactQ x)%Q.
Proof.
  unfold add_is_exact, represents, exactQ.
  destruct (exact a) as [qa|]; [|discriminate].
  destruct (exact x) as [qx|]; [|discriminate].
  destruct (exact (a + x)%float) as [qr|]; [|discriminate].
  intros E Ha. apply Qeq_bool_eq in E. rewrite E, Ha. reflexivity.
Qed.

Lemma isFinite_represents (a : number) :
  isFinite a = true -> represents a (exactQ a).
Proof.
  unfold isFinite, represents, exactQ.
  destruct (exact a); [reflexivity | discriminate].
Qed.

Lemma no_rounding_from_represents (l : list number) :
  forall (acc : number) (q : Q),
    no_rounding_from acc l = true ->
    represents acc q ->
    represents (ieee_sum_from acc l) (q + exact_sum l)%Q.
Proof.
  induction l as [|x l IH]; intros acc q H Hq; simpl in *.
  - unfold represents in *. destruct (exact acc); [|contradiction].
    rewrite Hq. ring.
  - apply andb_prop in H. destruct H as [Hx Hl].
    assert (Hs : represents (acc + x)%float (q + exactQ x)%Q)
      by (apply add_is_exact_represents; assumption).
    pose proof (IH (acc + x)%float (q + exactQ x)%Q Hl Hs) as R.
    unfold represents in *.
    destruct (exact (ieee_sum_from (acc + x)%float l)); [|contradiction].
    rewrite R. ring.
Qed.

(** Where no addition rounds, the left-to-right sum is the exact one. *)
Lemma no_rounding_exact (l : list number) :
  no_rounding l = true -> represents (ieee_sum l) (exact_sum l).
Proof.
  intros H.
  assert (R : represents (ieee_sum l) (0 + exact_sum l)%Q).
  { apply no_rounding_from_represents; [exact H | vm_compute; reflexivity]. }
  unfold represents in *. destruct (exact (ieee_sum l)); [|contradiction].
  rewrite R. ring.
Qed.

(* ================================================================== *)
(** * [recalculateSummaries] *)

Lemma recalculateSummaries_eq (w : World) :
  recalculateSummaries w =
    (Return tt,
     {| store :=
          with_summaries
            (ieee_sum (balances (accounts (store w))))
            (ieee_sum (weightChanges (transactions (store w))))
            (if (0 <? ieee_sum (sale_weights (transactions (store w))))%float
             then Some (ieee_sum (sale_amounts (transactions (store w)))
                        / ieee_sum (sale_weights (transactions (store w))))%float
             else None)
            (store w);
        remote := remote w;
        console := console w |}).
Proof.
  unfold recalculateSummaries, bind, get, set. cbn.
  rewrite !reduce_ieee_sum. reflexivity.
Qed.

(** Recalculation never throws and touches the three summaries only. *)
Lemma recalculateSummaries_returns (w : World) :
  completion recalculateSummaries w = Return tt.
Proof. unfold completion. rewrite recalculateSummaries_eq. reflexivity. Qed.

Lemma recalculateSummaries_keeps (w : World) :
  let w' := after recalculateSummaries w in
  accounts (store w') = accounts (store w)
  /\ transactions (store w') = transactions (store w)
  /\ session (store w') = session (store w)
  /\ user (store w') = user (store w)
  /\ isLoading (store w') = isLoading (store w)
  /\ isSessionLoading (store w') = isSessionLoading (store w)
  /\ remote w' = remote w
  /\ console w' = console w.
Proof.
  unfold after. rewrite recalculateSummaries_eq. cbn. repeat split.
Qed.

(** Recalculating twice gives what recalculating once gives. *)
Lemma recalculateSummaries_idempotent (w : World) :
  after recalculateSummaries (after recalculateSummaries w)
  = after recalculateSummaries w.
Proof.
  unfold after. rewrite !recalculateSummaries_eq. cbn. reflexivity.
Qed.

(* ================================================================== *)
(** * Net cash and weight on hand *)

(** The order of the accounts shows in the net cash: 0.1 + 0.2 + 0.3 is
    0.6000000000000001 and 0.3 + 0.2 + 0.1 is 0.6. *)
Lemma overallNetCash_depends_on_order :
  Permutation dimes (rev dimes)
  /\ overallNetCash (store (after recalculateSummaries (ledger dimes [])))
     = 0.60000000000000009%float
  /\ overallNetCash (store (after recalculateSummaries (ledger (rev dimes) [])))
     = 0.59999999999999998%float.
Proof.
  split; [apply Permutation_rev|].
  split; vm_compute; reflexivity.
Qed.

(** C1, as stated, fails: with balances 0.1, 0.2 and 0.3 the net cash is
    not the exact sum of the balances. *)
Lemma overallNetCash_not_exact_sum :
  ~ overallNetCash_exact_in_any_order (ledger dimes []).
Proof.
  intros H. specialize (H (ledger dimes []) (Permutation_refl _)).
  vm_compute in H. apply Z.eqb_eq in H. vm_compute in H. exact (Bool.diff_false_true H).
Qed.

(** C1 (amended): after [recalculateSummaries], [overallNetCash] is the
    sum of [current_balance] over the accounts taken in binary64
    arithmetic, left to right in the order of the collection, from 0; and
    under every ordering of the accounts in which none of these additions
    rounds, it is the exact sum of the balances. *)
Theorem overallNetCash_left_to_right_sum (w : World) :
  overallNetCash (store (after recalculateSummaries w))
  = ieee_sum (balances (accounts (store w)))
  /\ forall v : World,
       Permutation (accounts (store w)) (accounts (store v)) ->
       no_rounding (balances (accounts (store v))) = true ->
       represents (overallNetCash (store (after recalculateSummaries v)))
                  (exact_sum (balances (accounts (store w)))).
Proof.
  split.
  - unfold after. rewrite recalculateSummaries_eq. reflexivity.
  - intros v P N. unfold after. rewrite recalculateSummaries_eq. cbn.
    apply no_rounding_exact in N.
    assert (E : (exact_sum (balances (accounts (store w)))
                 == exact_sum (balances (accounts (store v))))%Q).
    { apply exact_sum_Permutation. unfold balances.
      apply Permutation_map. exact P. }
    unfold represents in *.
    destruct (exact (ieee_sum (balances (accounts (store v))))); [|contradiction].
    rewrite N, E. reflexivity.
Qed.

(** Scenario A: balances 100 and -25.50 give 74.50, in either order. *)
Lemma overallNetCash_scenario_A :
  overallNetCash (store (after recalculateSummaries (ledger scenario_A [])))
  = 74.5%float
  /\ represents
       (overallNetCash
          (store (after recalculateSummaries (ledger (rev scenario_A) []))))
       (exact_sum (balances scenario_A)).
Proof.
  split.
  - rewrite (proj1 (overallNetCash_left_to_right_sum (ledger scenario_A []))).
    vm_compute. reflexivity.
  - apply (proj2 (overallNetCash_left_to_right_sum (ledger scenario_A []))
             (ledger (rev scenario_A) [])).
    + apply perm_swap.
    + vm_compute. reflexivity.
Defined.

(** With 0.1 and 0.2 received and 0.3 dispensed, the weight on hand is
    2^-54, about 5.55e-17; the three weight changes add up to 2^-55. *)
Lemma weightOnHand_decigrams :
  weightOnHand (store (after recalculateSummaries (ledger [] decigrams)))
  = 0x1p-54%float
  /\ (exact_sum (weightChanges decigrams) == 1 # 2 ^ 55)%Q.
Proof. split; vm_compute; reflexivity. Qed.

(** C2, as stated, fails: with 0.1 and 0.2 received and 0.3 dispensed,
    the weight on hand is not the exact sum of the weight changes. *)
Lemma weightOnHand_not_exact_sum :
  ~ weightOnHand_exact (ledger [] decigrams).
Proof.
  intros H. vm_compute in H. apply Z.eqb_eq in H. vm_compute in H.
  discriminate H.
Qed.

(** C2 (amended): after [recalculateSummaries], [weightOnHand] is the sum
    of [weightChange] over the transactions, negative values included,
    taken in binary64 arithmetic left to right in the order of the
    collection, from 0; where none of these additions rounds, it is the
    exact sum. *)
Theorem weightOnHand_left_to_right_sum (w : World) :
  weightOnHand (store (after recalculateSummaries w))
  = ieee_sum (weightChanges (transactions (store w)))
  /\ (no_rounding (weightChanges (transactions (store w))) = true ->
      weightOnHand_exact w).
Proof.
  unfold weightOnHand_exact, after. rewrite recalculateSummaries_eq. cbn.
  split; [reflexivity | apply no_rounding_exact].
Qed.

(** Scenario B: weight changes -5 and 10 give 5. *)
Lemma weightOnHand_scenario_B :
  weightOnHand (store (after recalculateSummaries (ledger [] scenario_B)))
  = 5%float
  /\ weightOnHand_exact (ledger [] scenario_B).
Proof.
  split.
  - rewrite (proj1 (weightOnHand_left_to_right_sum (ledger [] scenario_B))).
    vm_compute. reflexivity.
  - apply (proj2 (weightOnHand_left_to_right_sum (ledger [] scenario_B))).
    vm_compute. reflexivity.
Defined.

(* ================================================================== *)
(** * Zero, positive or +Infinity *)

Lemma isNaN_false_SF (x : number) :
  isNaN x = false -> Prim2SF x <> S754_nan.
Proof.
  unfold isNaN. rewrite FloatAxioms.eqb_spec. intros H E. rewrite E in H. discriminate H.
Qed.

Lemma nonneg_abs (x : number) : isNaN x = false -> nonneg (abs x) = true.
Proof.
  intros H. apply isNaN_false_SF in H.
  unfold nonneg. rewrite FloatAxioms.abs_spec.
  destruct (Prim2SF x); try reflexivity. contradiction.
Qed.

Lemma shr_1_nonneg (mrs : shr_record) :
  (0 <= shr_m mrs)%Z -> (0 <= shr_m (shr_1 mrs))%Z.
Proof.
  destruct mrs as [m r s]. cbn.
  destruct m as [|p|p]; cbn; intros H; try lia; destruct p; cbn; lia.
Qed.

Lemma iter_shr_1_nonneg (p : positive) :
  forall mrs : shr_record,
    (0 <= shr_m mrs)%Z -> (0 <= shr_m (SpecFloat.iter_pos shr_1 p mrs))%Z.
Proof.
  induction p as [p IH|p IH|]; intros mrs H; cbn.
  - apply IH, IH, shr_1_nonneg, H.
  - apply IH, IH, H.
  - apply shr_1_nonneg, H.
Qed.

Lemma shr_nonneg (mrs : shr_record) (e n : Z) :
  (0 <= shr_m mrs)%Z -> (0 <= shr_m (fst (shr mrs e n)))%Z.
Proof.
  intros H. unfold shr. destruct n; cbn; try exact H.
  apply iter_shr_1_nonneg, H.
Qed.

Lemma shr_record_of_loc_m (m : Z) (l : location) :
  shr_m (shr_record_of_loc m l) = m.
Proof. destruct l as [|[| |]]; reflexivity. Qed.

Lemma shr_fexp_nonneg (prec emax m e : Z) (l : location) :
  (0 <= m)%Z -> (0 <= shr_m (fst (shr_fexp prec emax m e l)))%Z.
Proof.
  intros H. unfold shr_fexp. apply shr_nonneg.
  rewrite shr_record_of_loc_m. exact H.
Qed.

Lemma round_nearest_even_nonneg (m : Z) (l : location) :
  (0 <= m)%Z -> (0 <= round_nearest_even m l)%Z.
Proof.
  intros H. unfold round_nearest_even.
  destruct l as [|[| |]]; try lia. destruct (Z.even m); lia.
Qed.

Lemma binary_round_aux_nonneg (prec emax m e : Z) (l : location) :
  (0 <= m)%Z -> SFnonneg (binary_round_aux prec emax false m e l) = true.
Proof.
  intros H. unfold binary_round_aux.
  pose proof (shr_fexp_nonneg prec emax e l H) as H1.
  destruct (shr_fexp prec emax m e l) as [mrs' e']. cbn [fst] in H1.
  pose proof (round_nearest_even_nonneg (loc_of_shr_record mrs') H1) as H2.
  pose proof (shr_fexp_nonneg prec emax e' loc_Exact H2) as H3.
  destruct (shr_fexp prec emax
              (round_nearest_even (shr_m mrs') (loc_of_shr_record mrs'))
              e' loc_Exact) as [mrs'' e''].
  cbn [fst] in H3.
  destruct (shr_m mrs'') as [|p|p]; [reflexivity| |lia].
  destruct (e'' <=? emax - prec)%Z; reflexivity.
Qed.

Lemma SFadd_nonneg (prec emax : Z) (x y : spec_float) :
  SFnonneg x = true -> SFnonneg y = true ->
  SFnonneg (SFadd prec emax x y) = true.
Proof.
  destruct x as [sx|sx| |sx mx ex]; destruct y as [sy|sy| |sy my ey];
    cbn [SFnonneg]; intros Hx Hy; try discriminate;
    try (destruct sx; try discriminate);
    try (destruct sy; try discriminate);
    try reflexivity.
  unfold SFadd, cond_Zopp, binary_normalize.
  cbn [Z.add]. unfold binary_round.
  destruct (shl_align _ _ _) as [mz ez].
  apply binary_round_aux_nonneg. lia.
Qed.

Lemma nonneg_add (x y : number) :
  nonneg x = true -> nonneg y = true -> nonneg (x + y)%float = true.
Proof.
  unfold nonneg. rewrite FloatAxioms.add_spec. unfold SF64add. apply SFadd_nonneg.
Qed.

Lemma nonneg_ieee_sum_from (l : list number) :
  forall acc : number,
    nonneg acc = true ->
    (forall x, In x l -> nonneg x = true) ->
    nonneg (ieee_sum_from acc l) = true.
Proof.
  induction l as [|x l IH]; intros acc Ha Hl; cbn.
  - exact Ha.
  - apply IH.
    + apply nonneg_add; [exact Ha | apply Hl; left; reflexivity].
    + intros y Hy. apply Hl. right. exact Hy.
Qed.

(** On such a number, [> 0] fails exactly when it is zero. *)
Lemma nonneg_positive_or_zero (x : number) :
  nonneg x = true -> (0 <? x)%float = negb (x =? 0)%float.
Proof.
  unfold nonneg. rewrite FloatAxioms.ltb_spec, FloatAxioms.eqb_spec.
  change (Prim2SF 0%float) with (S754_zero false).
  destruct (Prim2SF x) as [s|s| |s m e]; cbn; try discriminate;
    try reflexivity; destruct s; try discriminate; reflexivity.
Qed.

(** ** A sum with a positive term is positive

    Adding does not underflow: the total of the absolute weight changes
    is zero only when each of them is. *)

Lemma digits2_pos_bound (m : positive) :
  (2 ^ (Zpos (digits2_pos m) - 1) <= Zpos m)%Z.
Proof.
  induction m as [m IH|m IH|]; cbn [digits2_pos].
  - replace (Zpos (Pos.succ (digits2_pos m)) - 1)%Z
      with (Z.succ (Zpos (digits2_pos m) - 1)) by lia.
    rewrite Z.pow_succ_r by lia. lia.
  - replace (Zpos (Pos.succ (digits2_pos m)) - 1)%Z
      with (Z.succ (Zpos (digits2_pos m) - 1)) by lia.
    rewrite Z.pow_succ_r by lia. lia.
  - cbn. lia.
Qed.

Lemma shr_1_bound (k : Z) (mrs : shr_record) :
  (0 <= k)%Z ->
  (2 ^ (k + 1) <= shr_m mrs)%Z ->
  (2 ^ k <= shr_m (shr_1 mrs))%Z.
Proof.
  intros Hk. rewrite Z.add_1_r, Z.pow_succ_r by exact Hk.
  pose proof (Z.pow_pos_nonneg 2 k ltac:(lia) Hk) as P.
  destruct mrs as [m r s]. cbn [shr_m]. intros H.
  destruct m as [|[p|p|]|[p|p|]]; unfold shr_1; cbn [shr_m]; lia.
Qed.

Lemma iter_shr_1_bound (n : positive) :
  forall (k : Z) (mrs : shr_record),
    (0 <= k)%Z ->
    (2 ^ (k + Zpos n) <= shr_m mrs)%Z ->
    (2 ^ k <= shr_m (SpecFloat.iter_pos shr_1 n mrs))%Z.
Proof.
  induction n as [n IH|n IH|]; intros k mrs Hk H; cbn.
  - apply IH; [exact Hk|]. apply IH; [lia|]. apply shr_1_bound; [lia|].
    replace (k + Zpos n + Zpos n + 1)%Z with (k + Zpos n~1)%Z by lia.
    exact H.
  - apply IH; [exact Hk|]. apply IH; [lia|].
    replace (k + Zpos n + Zpos n)%Z with (k + Zpos n~0)%Z by lia.
    exact H.
  - apply shr_1_bound; assumption.
Qed.

Lemma shr_fexp_pos (prec emax m e : Z) (l : location) :
  (0 < prec)%Z -> (0 < m)%Z -> (SpecFloat.emin prec emax <= e)%Z ->
  (0 < shr_m (fst (shr_fexp prec emax m e l)))%Z
  /\ (SpecFloat.emin prec emax <= snd (shr_fexp prec emax m e l))%Z.
Proof.
  intros Hp Hm He. unfold shr_fexp, shr.
  destruct m as [|mp|mp]; try lia.
  cbn [Zdigits2].
  pose proof (digits2_pos_bound mp) as D.
  destruct (fexp prec emax (Zpos (digits2_pos mp) + e) - e)%Z as [|n|n] eqn:N;
    cbn [fst snd]; rewrite ?shr_record_of_loc_m; try (split; lia).
  assert (Hn : (Zpos n <= Zpos (digits2_pos mp) - 1)%Z)
    by (unfold fexp in N; lia).
  split; [|lia].
  apply Z.lt_le_trans with (2 ^ (Zpos (digits2_pos mp) - 1 - Zpos n))%Z.
  - apply Z.pow_pos_nonneg; lia.
  - apply iter_shr_1_bound; [lia|]. rewrite shr_record_of_loc_m.
    replace (Zpos (digits2_pos mp) - 1 - Zpos n + Zpos n)%Z
      with (Zpos (digits2_pos mp) - 1)%Z by lia.
    exact D.
Qed.

Lemma round_nearest_even_pos (m : Z) (l : location) :
  (0 < m)%Z -> (0 < round_nearest_even m l)%Z.
Proof.
  intros H. unfold round_nearest_even.
  destruct l as [|[| |]]; try lia. destruct (Z.even m); lia.
Qed.

Lemma binary_round_aux_pos (prec emax m e : Z) (l : location) :
  (0 < prec)%Z -> (0 < m)%Z -> (SpecFloat.emin prec emax <= e)%Z ->
  SFpos (binary_round_aux prec emax false m e l) = true.
Proof.
  intros Hp Hm He. unfold binary_round_aux.
  destruct (shr_fexp_pos emax l Hp Hm He) as [H1 E1].
  destruct (shr_fexp prec emax m e l) as [mrs' e']. cbn [fst snd] in H1, E1.
  pose proof (round_nearest_even_pos (loc_of_shr_record mrs') H1) as H2.
  destruct (shr_fexp_pos emax loc_Exact Hp H2 E1) as [H3 _].
  destruct (shr_fexp prec emax
              (round_nearest_even (shr_m mrs') (loc_of_shr_record mrs'))
              e' loc_Exact) as [mrs'' e''].
  cbn [fst] in H3.
  destruct (shr_m mrs'') as [|p|p]; try lia.
  destruct (e'' <=? emax - prec)%Z; reflexivity.
Qed.

Lemma binary_round_pos (prec emax : Z) (m : positive) (e : Z) :
  (0 < prec)%Z -> (SpecFloat.emin prec emax <= e)%Z ->
  SFpos (binary_round prec emax false m e) = true.
Proof.
  intros Hp He. unfold binary_round.
  assert (A : (SpecFloat.emin prec emax
               <= snd (shl_align m e (fexp prec emax (Zpos (digits2_pos m) + e))))%Z).
  { unfold shl_align, fexp.
    destruct (Z.max (Zpos (digits2_pos m) + e - prec) (SpecFloat.emin prec emax) - e)%Z;
      cbn [snd]; lia. }
  destruct (shl_align m e (fexp prec emax (Zpos (digits2_pos m) + e)))
    as [mz ez].
  cbn [snd] in A. apply binary_round_aux_pos; [exact Hp | lia | exact A].
Qed.

Lemma SFadd_pos_l (prec emax : Z) (x y : spec_float) :
  (0 < prec)%Z ->
  SFabove_emin prec emax x -> SFabove_emin prec emax y ->
  SFpos x = true -> SFnonneg y = true ->
  SFpos (SFadd prec emax x y) = true.
Proof.
  intros Hp.
  destruct x as [sx|sx| |sx mx ex]; destruct y as [sy|sy| |sy my ey];
    cbn [SFpos SFnonneg SFabove_emin]; intros Ex Ey Hx Hy; try discriminate;
    try (destruct sx; try discriminate);
    try (destruct sy; try discriminate);
    try reflexivity.
  unfold SFadd, cond_Zopp, binary_normalize. cbn [Z.add].
  apply binary_round_pos; [exact Hp | lia].
Qed.

Lemma SFadd_pos_r (prec emax : Z) (x y : spec_float) :
  (0 < prec)%Z ->
  SFabove_emin prec emax x -> SFabove_emin prec emax y ->
  SFnonneg x = true -> SFpos y = true ->
  SFpos (SFadd prec emax x y) = true.
Proof.
  intros Hp.
  destruct x as [sx|sx| |sx mx ex]; destruct y as [sy|sy| |sy my ey];
    cbn [SFpos SFnonneg SFabove_emin]; intros Ex Ey Hx Hy; try discriminate;
    try (destruct sx; try discriminate);
    try (destruct sy; try discriminate);
    try reflexivity.
  unfold SFadd, cond_Zopp, binary_normalize. cbn [Z.add].
  apply binary_round_pos; [exact Hp | lia].
Qed.

Lemma Prim2SF_above_emin (x : number) :
  SFabove_emin FloatOps.prec FloatOps.emax (Prim2SF x).
Proof.
  pose proof (Prim2SF_valid x) as V.
  destruct (Prim2SF x) as [s|s| |s m e]; cbn [SFabove_emin]; try exact I.
  unfold valid_binary, bounded, canonical_mantissa in V.
  apply andb_prop in V. destruct V as [V _]. apply Z.eqb_eq in V.
  unfold fexp in V. lia.
Qed.

Lemma nonneg_is_zero_or_pos (x : number) :
  nonneg x = true -> is_zero x = negb (SFpos (Prim2SF x)).
Proof.
  unfold nonneg, is_zero. rewrite FloatAxioms.eqb_spec.
  change (Prim2SF 0%float) with (S754_zero false).
  destruct (Prim2SF x) as [s|s| |s m e]; cbn; try discriminate;
    try reflexivity; destruct s; try discriminate; reflexivity.
Qed.

Lemma pos_nonneg (x : number) : SFpos (Prim2SF x) = true -> nonneg x = true.
Proof. unfold nonneg. destruct (Prim2SF x); cbn; congruence. Qed.

Lemma pos_add_l (x y : number) :
  SFpos (Prim2SF x) = true -> nonneg y = true ->
  SFpos (Prim2SF (x + y)%float) = true.
Proof.
  intros Hx Hy. rewrite FloatAxioms.add_spec. unfold SF64add.
  apply SFadd_pos_l; try apply Prim2SF_above_emin; try assumption.
  reflexivity.
Qed.

Lemma pos_add_r (x y : number) :
  nonneg x = true -> SFpos (Prim2SF y) = true ->
  SFpos (Prim2SF (x + y)%float) = true.
Proof.
  intros Hx Hy. rewrite FloatAxioms.add_spec. unfold SF64add.
  apply SFadd_pos_r; try apply Prim2SF_above_emin; try assumption.
  reflexivity.
Qed.

Lemma pos_ieee_sum_from (l : list number) :
  forall acc : number,
    SFpos (Prim2SF acc) = true ->
    (forall x, In x l -> nonneg x = true) ->
    SFpos (Prim2SF (ieee_sum_from acc l)) = true.
Proof.
  induction l as [|x l IH]; intros acc Ha Hl; cbn.
  - exact Ha.
  - apply IH.
    + apply pos_add_l; [exact Ha | apply Hl; left; reflexivity].
    + intros y Hy. apply Hl. right. exact Hy.
Qed.

(** A left-to-right sum of numbers that are zero, positive or +Infinity,
    from such a number, is zero exactly when all of them are. *)
Lemma ieee_sum_from_is_zero (l : list number) :
  forall acc : number,
    nonneg acc = true ->
    (forall x, In x l -> nonneg x = true) ->
    (is_zero (ieee_sum_from acc l) = true
     <-> is_zero acc = true /\ forall x, In x l -> is_zero x = true).
Proof.
  induction l as [|x l IH]; intros acc Ha Hl; cbn [ieee_sum_from].
  - split; [intros H; split; [exact H | intros x []] | intros [H _]; exact H].
  - assert (Hx : nonneg x = true) by (apply Hl; left; reflexivity).
    assert (Hl' : forall y, In y l -> nonneg y = true)
      by (intros y Hy; apply Hl; right; exact Hy).
    rewrite (IH (acc + x)%float (nonneg_add _ _ Ha Hx) Hl').
    rewrite (nonneg_is_zero_or_pos _ (nonneg_add _ _ Ha Hx)).
    rewrite (nonneg_is_zero_or_pos _ Ha).
    pose proof (nonneg_is_zero_or_pos _ Hx) as Zx.
    destruct (SFpos (Prim2SF acc)) eqn:Pa.
    + rewrite (pos_add_l _ _ Pa Hx). cbn [negb]. split; intros [H _]; discriminate H.
    + destruct (SFpos (Prim2SF x)) eqn:Px.
      * rewrite (pos_add_r _ _ Ha Px). cbn [negb]. split.
        -- intros [H _]; discriminate H.
        -- intros [_ H]. specialize (H x (or_introl eq_refl)).
           rewrite Zx in H. discriminate H.
      * assert (Z0 : SFpos (Prim2SF (acc + x)%float) = false).
        { rewrite FloatAxioms.add_spec. unfold nonneg in Ha, Hx.
          destruct (Prim2SF acc) as [sa|sa| |sa ma ea];
            destruct (Prim2SF x) as [sx|sx| |sx mx ex];
            cbn in Pa, Px, Ha, Hx |- *; try discriminate;
            try (destruct sa; discriminate); try (destruct sx; discriminate).
          destruct sa, sx; reflexivity. }
        rewrite Z0. cbn [negb]. split.
        -- intros [_ H]. split; [reflexivity|].
           intros y [<-|Hy]; [exact Zx | apply H, Hy].
        -- intros [_ H]. split; [reflexivity|].
           intros y Hy. apply H. right. exact Hy.
Qed.

(* ================================================================== *)
(** * The ratio *)

Lemma sale_weights_nonneg (txs : list Transaction.t) :
  sale_weights_are_numbers txs ->
  nonneg (ieee_sum (sale_weights txs)) = true.
Proof.
  intros H. unfold ieee_sum. apply nonneg_ieee_sum_from; [reflexivity|].
  intros x Hx. unfold sale_weights, sales_of in Hx.
  apply in_map_iff in Hx. destruct Hx as [tx [<- Htx]].
  apply filter_In in Htx. destruct Htx as [Hin Hs].
  apply nonneg_abs. apply H; assumption.
Qed.

Lemma is_zero_abs (x : number) : is_zero (abs x) = is_zero x.
Proof.
  unfold is_zero. rewrite !FloatAxioms.eqb_spec, FloatAxioms.abs_spec.
  destruct (Prim2SF x) as [s|s| |s m e]; try reflexivity; destruct s; reflexivity.
Qed.

(** The total of the absolute weight changes of the sales is zero exactly
    when each sale has a zero weight change. *)
Lemma sale_weights_zero (txs : list Transaction.t) :
  sale_weights_are_numbers txs ->
  (is_zero (ieee_sum (sale_weights txs)) = true
   <-> forall tx, In tx txs -> is_sale tx = true ->
                  is_zero (Transaction.weightChange tx) = true).
Proof.
  intros H. unfold ieee_sum.
  rewrite ieee_sum_from_is_zero.
  - split.
    + intros [_ Z] tx Hin Hs. rewrite <- is_zero_abs. apply Z.
      unfold sale_weights, sales_of. apply in_map_iff. exists tx.
      split; [reflexivity|]. apply filter_In. split; assumption.
    + intros Z. split; [reflexivity|]. intros x Hx.
      unfold sale_weights, sales_of in Hx.
      apply in_map_iff in Hx. destruct Hx as [tx [<- Htx]].
      apply filter_In in Htx. destruct Htx as [Hin Hs].
      rewrite is_zero_abs. apply Z; assumption.
  - reflexivity.
  - intros x Hx. unfold sale_weights, sales_of in Hx.
    apply in_map_iff in Hx. destruct Hx as [tx [<- Htx]].
    apply filter_In in Htx. destruct Htx as [Hin Hs].
    apply nonneg_abs. apply H; assumption.
Qed.

(** C3: after [recalculateSummaries], which returns without an error,
    [dollarPerGramRatio] is [null] exactly when the total of the absolute
    weight changes of the Sale transactions is zero, which is when every
    one of them is zero; otherwise it is the total of their amounts
    divided by that total, so that no division by zero takes place. The
    totals are those the store takes, left to right. *)
Theorem dollarPerGramRatio_null_iff_zero_weight (w : World) :
  sale_weights_are_numbers (transactions (store w)) ->
  let totalSalesAmount := ieee_sum (sale_amounts (transactions (store w))) in
  let totalSalesWeight := ieee_sum (sale_weights (transactions (store w))) in
  let ratio := dollarPerGramRatio (store (after recalculateSummaries w)) in
  completion recalculateSummaries w = Return tt
  /\ (ratio = None <-> is_zero totalSalesWeight = true)
  /\ (is_zero totalSalesWeight = true
      <-> forall tx, In tx (transactions (store w)) -> is_sale tx = true ->
                     is_zero (Transaction.weightChange tx) = true)
  /\ (is_zero totalSalesWeight = false ->
      ratio = Some (totalSalesAmount / totalSalesWeight)%float).
Proof.
  intros H. cbv zeta.
  pose proof (nonneg_positive_or_zero _ (sale_weights_nonneg H)) as P.
  pose proof (sale_weights_zero H) as Z.
  unfold completion, after. rewrite recalculateSummaries_eq. cbn.
  rewrite P. fold (is_zero (ieee_sum (sale_weights (transactions (store w))))).
  destruct (is_zero (ieee_sum (sale_weights (transactions (store w))))); cbn.
  - split; [reflexivity|]. split; [tauto|]. split; [exact Z | discriminate].
  - split; [reflexivity|]. split; [split; discriminate|].
    split; [exact Z | reflexivity].
Qed.

(** Scenario B: one sale of 50 for 5 dispensed gives 10; scenario C: no
    sale gives [null]. *)
Lemma dollarPerGramRatio_scenario_B :
  dollarPerGramRatio (store (after recalculateSummaries (ledger [] scenario_B)))
  = Some 10%float.
Proof.
  assert (H : sale_weights_are_numbers (transactions (store (ledger [] scenario_B)))).
  { intros tx [<-|[<-|[]]] _; reflexivity. }
  destruct (dollarPerGramRatio_null_iff_zero_weight (ledger [] scenario_B) H)
    as [_ [_ [_ R]]].
  rewrite R; reflexivity.
Defined.

Lemma dollarPerGramRatio_scenario_C :
  dollarPerGramRatio
    (store (after recalculateSummaries
              (ledger [] [transaction_of 2%float "Purchase" (-20)%float 10%float])))
  = None.
Proof. reflexivity. Qed.

(** Why the weight changes must be numbers: a sale whose weight change is
    NaN makes the total NaN, which is neither zero nor greater than
    zero, and the ratio is [null]. *)
Remark dollarPerGramRatio_NaN_weight :
  let txs := [transaction_of 1%float "Sale" 50%float nan] in
  dollarPerGramRatio (store (after recalculateSummaries (ledger [] txs))) = None
  /\ is_zero (ieee_sum (sale_weights txs)) = false.
Proof. split; reflexivity. Qed.

(* ================================================================== *)
(** * The actions, run *)

Section StoreProperties.

Variable Date_getTime : string -> number.
Variable now : string.

#[local] Arguments recalculateSummaries : simpl never.

Ltac run_action :=
  unfold bind, ret, throw, get, set, send, console_error, await,
         try_catch, try_finally, throw_if;
  cbn.

Lemma recalculateSummaries_run (w : World) :
  recalculateSummaries w
  = (Return tt,
     {| store := recalculated (store w);
        remote := remote w;
        console := console w |}).
Proof.
  unfold recalculated, after, world_of.
  rewrite !recalculateSummaries_eq. reflexivity.
Qed.

Lemma recalculated_summaries (s : AppState) :
  recalculated s
  = with_summaries
      (ieee_sum (balances (accounts s)))
      (ieee_sum (weightChanges (transactions s)))
      (if (0 <? ieee_sum (sale_weights (transactions s)))%float
       then Some (ieee_sum (sale_amounts (transactions s))
                  / ieee_sum (sale_weights (transactions s)))%float
       else None)
      s.
Proof.
  unfold recalculated, after, world_of.
  rewrite recalculateSummaries_eq. reflexivity.
Qed.

Lemma recalculated_fresh (s : AppState) : summaries_fresh (recalculated s).
Proof.
  unfold summaries_fresh. fold (recalculated (recalculated s)).
  rewrite !recalculated_summaries. reflexivity.
Qed.

(** Freshness, summary by summary. *)
Lemma summaries_fresh_fields (s : AppState) :
  summaries_fresh s
  <-> overallNetCash s = ieee_sum (balances (accounts s))
      /\ weightOnHand s = ieee_sum (weightChanges (transactions s))
      /\ dollarPerGramRatio s
         = (if (0 <? ieee_sum (sale_weights (transactions s)))%float
            then Some (ieee_sum (sale_amounts (transactions s))
                       / ieee_sum (sale_weights (transactions s)))%float
            else None).
Proof.
  unfold summaries_fresh. fold (recalculated s).
  rewrite recalculated_summaries. split.
  - intros H. repeat split.
    + apply (f_equal overallNetCash) in H. symmetry. exact H.
    + apply (f_equal weightOnHand) in H. symmetry. exact H.
    + apply (f_equal dollarPerGramRatio) in H. symmetry. exact H.
  - intros [H1 [H2 H3]]. unfold with_summaries.
    rewrite <- H1, <- H2, <- H3. reflexivity.
Qed.

(** The fields [set] leaves alone are of no account to freshness. *)
Lemma with_isLoading_fresh (b : bool) (s : AppState) :
  summaries_fresh s -> summaries_fresh (with_isLoading b s).
Proof. rewrite !summaries_fresh_fields. cbn. tauto. Qed.

(** ** The fetches *)

Lemma fetchAccounts_request_none (w : World) :
  user (store w) = None -> fetchAccounts_request w = (Return None, w).
Proof. intros H. unfold fetchAccounts_request. run_action. rewrite H. reflexivity. Qed.

Lemma fetchAccounts_request_some (w : World) (u : User) :
  user (store w) = Some u ->
  fetchAccounts_request w
  = (Return (Some u),
     {| store := with_isLoading true (store w);
        remote := remote w ++ [select_accounts (user_id u)];
        console := console w |}).
Proof. intros H. unfold fetchAccounts_request. run_action. rewrite H. reflexivity. Qed.

Lemma fetchTransactions_request_none (w : World) :
  user (store w) = None -> fetchTransactions_request w = (Return None, w).
Proof.
  intros H. unfold fetchTransactions_request. run_action. rewrite H. reflexivity.
Qed.

Lemma fetchTransactions_request_some (w : World) (u : User) :
  user (store w) = Some u ->
  fetchTransactions_request w
  = (Return (Some u),
     {| store := with_isLoading true (store w);
        remote := remote w ++ [select_transactions (user_id u)];
        console := console w |}).
Proof.
  intros H. unfold fetchTransactions_request. run_action. rewrite H. reflexivity.
Qed.

Lemma fetchAccounts_settle_fulfilled
    (p : Settled (Response AccountRow.t)) (w : World) :
  select_failure p = None ->
  fetchAccounts_settle Date_getTime p w
  = (Return tt,
     {| store :=
          with_isLoading false
            (recalculated
               (with_accounts (map (mapAccount Date_getTime) (rows_of p))
                              (store w)));
        remote := remote w;
        console := console w |}).
Proof.
  intros H. destruct p as [[d [e|]]|e]; try discriminate H.
  unfold fetchAccounts_settle. run_action.
  rewrite recalculateSummaries_run. cbn.
  destruct d; reflexivity.
Qed.

Lemma fetchAccounts_settle_failed
    (p : Settled (Response AccountRow.t)) (e : JsError) (w : World) :
  select_failure p = Some e ->
  fetchAccounts_settle Date_getTime p w
  = (Return tt,
     {| store := with_isLoading false (with_accounts [] (store w));
        remote := remote w;
        console := console w ++ [Failed_to_fetch_accounts e] |}).
Proof.
  intros H. destruct p as [[d [e'|]]|e']; cbn in H; inversion H; subst;
    reflexivity.
Qed.

Lemma fetchTransactions_settle_fulfilled
    (p : Settled (Response TransactionRow.t)) (w : World) :
  select_failure p = None ->
  fetchTransactions_settle Date_getTime p w
  = (Return tt,
     {| store :=
          with_isLoading false
            (recalculated
               (with_transactions
                  (map (mapTransaction Date_getTime) (rows_of p)) (store w)));
        remote := remote w;
        console := console w |}).
Proof.
  intros H. destruct p as [[d [e|]]|e]; try discriminate H.
  unfold fetchTransactions_settle. run_action.
  rewrite recalculateSummaries_run. cbn.
  destruct d; reflexivity.
Qed.

Lemma fetchTransactions_settle_failed
    (p : Settled (Response TransactionRow.t)) (e : JsError) (w : World) :
  select_failure p = Some e ->
  fetchTransactions_settle Date_getTime p w
  = (Return tt,
     {| store := with_isLoading false (with_transactions [] (store w));
        remote := remote w;
        console := console w ++ [Failed_to_fetch_transactions e] |}).
Proof.
  intros H. destruct p as [[d [e'|]]|e']; cbn in H; inversion H; subst;
    reflexivity.
Qed.

(** Neither part of a fetch throws. *)
Lemma fetchAccounts_settle_returns
    (p : Settled (Response AccountRow.t)) (w : World) :
  completion (fetchAccounts_settle Date_getTime p) w = Return tt.
Proof.
  unfold completion. destruct (select_failure p) as [e|] eqn:F.
  - rewrite (fetchAccounts_settle_failed _ _ F). reflexivity.
  - rewrite (fetchAccounts_settle_fulfilled _ _ F). reflexivity.
Qed.

Lemma fetchTransactions_settle_returns
    (p : Settled (Response TransactionRow.t)) (w : World) :
  completion (fetchTransactions_settle Date_getTime p) w = Return tt.
Proof.
  unfold completion. destruct (select_failure p) as [e|] eqn:F.
  - rewrite (fetchTransactions_settle_failed _ _ F). reflexivity.
  - rewrite (fetchTransactions_settle_fulfilled _ _ F). reflexivity.
Qed.

Lemma fetchAccounts_in_two_parts
    (p : Settled (Response AccountRow.t)) (w : World) :
  fetchAccounts Date_getTime p w
  = (pending <- fetchAccounts_request ;;
     match pending with
     | None => ret tt
     | Some _ => fetchAccounts_settle Date_getTime p
     end) w.
Proof.
  unfold fetchAccounts, fetchAccounts_request, fetchAccounts_settle.
  run_action. destruct (user (store w)); [|reflexivity].
  destruct p as [[d [e|]]|e]; reflexivity.
Qed.

Lemma fetchTransactions_in_two_parts
    (p : Settled (Response TransactionRow.t)) (w : World) :
  fetchTransactions Date_getTime p w
  = (pending <- fetchTransactions_request ;;
     match pending with
     | None => ret tt
     | Some _ => fetchTransactions_settle Date_getTime p
     end) w.
Proof.
  unfold fetchTransactions, fetchTransactions_request, fetchTransactions_settle.
  run_action. destruct (user (store w)); [|reflexivity].
  destruct p as [[d [e|]]|e]; reflexivity.
Qed.

Lemma signOut_in_two_parts (p : Settled (option JsError)) (w : World) :
  signOut p w = (signOut_request ;; signOut_settle p) w.
Proof. destruct p as [[e|]|e]; reflexivity. Qed.

(** ** Exceptions stop at the action boundary *)

Lemma never_throws_ret {A} (a : A) : never_throws (ret a).
Proof. intros w. exists a. reflexivity. Qed.

Lemma never_throws_bind {A B} (c : Action A) (k : A -> Action B) :
  never_throws c -> (forall a, never_throws (k a)) -> never_throws (bind c k).
Proof.
  intros Hc Hk w. unfold completion, bind.
  destruct (Hc w) as [a Ha]. unfold completion in Ha.
  destruct (c w) as [r w1]. cbn in Ha. subst r. apply Hk.
Qed.

Lemma never_throws_get : never_throws get.
Proof. intros w. eexists. reflexivity. Qed.

Lemma never_throws_set (f : AppState -> AppState) : never_throws (set f).
Proof. intros w. eexists. reflexivity. Qed.

Lemma never_throws_send (c : RemoteCall) : never_throws (send c).
Proof. intros w. eexists. reflexivity. Qed.

Lemma never_throws_console_error (l : LogEntry) : never_throws (console_error l).
Proof. intros w. eexists. reflexivity. Qed.

Lemma never_throws_recalculateSummaries : never_throws recalculateSummaries.
Proof. intros w. exists tt. apply recalculateSummaries_returns. Qed.

(** A [catch] whose handler does not throw stops every exception. *)
Lemma never_throws_try_catch {A} (body : Action A) (handler : JsError -> Action A) :
  (forall e, never_throws (handler e)) -> never_throws (try_catch body handler).
Proof.
  intros Hh w. unfold completion, try_catch.
  destruct (body w) as [[a|e] w1].
  - exists a. reflexivity.
  - apply Hh.
Qed.

Lemma never_throws_try_finally {A} (body : Action A) (fin : Action unit) :
  never_throws body -> never_throws fin -> never_throws (try_finally body fin).
Proof.
  intros Hb Hf w. unfold completion, try_finally.
  destruct (Hb w) as [a Ha]. unfold completion in Ha.
  destruct (body w) as [r w1]. cbn in Ha. subst r.
  destruct (Hf w1) as [u Hu]. unfold completion in Hu.
  destruct (fin w1) as [r w2]. cbn in Hu. subst r.
  exists a. reflexivity.
Qed.

Create HintDb throws.

#[local] Hint Resolve never_throws_ret never_throws_get never_throws_set
  never_throws_send never_throws_console_error
  never_throws_recalculateSummaries : throws.

Ltac no_throw :=
  repeat first
    [ apply never_throws_try_finally
    | apply never_throws_try_catch; intros ?
    | apply never_throws_bind; [|intros ?]
    | solve [auto with throws]
    | match goal with
      | |- never_throws (match ?x with _ => _ end) => destruct x
      end ].

Lemma never_throws_fetchAccounts_request : never_throws fetchAccounts_request.
Proof. unfold fetchAccounts_request. no_throw. Qed.

Lemma never_throws_fetchTransactions_request :
  never_throws fetchTransactions_request.
Proof. unfold fetchTransactions_request. no_throw. Qed.

Lemma never_throws_fetchAccounts_settle (p : Settled (Response AccountRow.t)) :
  never_throws (fetchAccounts_settle Date_getTime p).
Proof. unfold fetchAccounts_settle. no_throw. Qed.

Lemma never_throws_fetchTransactions_settle
    (p : Settled (Response TransactionRow.t)) :
  never_throws (fetchTransactions_settle Date_getTime p).
Proof. unfold fetchTransactions_settle. no_throw. Qed.

Lemma fetch_both_returns (f : Refetch) : never_throws (fetch_both Date_getTime f).
Proof.
  pose proof never_throws_fetchAccounts_request.
  pose proof never_throws_fetchTransactions_request.
  pose proof never_throws_fetchAccounts_settle.
  pose proof never_throws_fetchTransactions_settle.
  unfold fetch_both, settle_accounts, settle_transactions. no_throw.
Qed.

Lemma never_throws_unit (c : Action unit) (w : World) :
  never_throws c -> completion c w = Return tt.
Proof. intros H. destruct (H w) as [[] E]. exact E. Qed.

(** ** Where the summaries are fresh *)

Lemma fetchAccounts_fulfilled_fresh
    (p : Settled (Response AccountRow.t)) (w : World) (u : User) :
  user (store w) = Some u ->
  select_failure p = None ->
  summaries_fresh (store (after (fetchAccounts Date_getTime p) w)).
Proof.
  intros U F. unfold after. rewrite fetchAccounts_in_two_parts.
  unfold bind. rewrite (fetchAccounts_request_some _ U).
  rewrite (fetchAccounts_settle_fulfilled _ _ F). cbn.
  apply with_isLoading_fresh, recalculated_fresh.
Qed.

Lemma fetchTransactions_fulfilled_fresh
    (p : Settled (Response TransactionRow.t)) (w : World) (u : User) :
  user (store w) = Some u ->
  select_failure p = None ->
  summaries_fresh (store (after (fetchTransactions Date_getTime p) w)).
Proof.
  intros U F. unfold after. rewrite fetchTransactions_in_two_parts.
  unfold bind. rewrite (fetchTransactions_request_some _ U).
  rewrite (fetchTransactions_settle_fulfilled _ _ F). cbn.
  apply with_isLoading_fresh, recalculated_fresh.
Qed.

(** Both fetches answered without an error, in either order. *)
Lemma fetch_both_fulfilled_fresh (f : Refetch) (w : World) (u : User) :
  user (store w) = Some u ->
  select_failure (accounts_answer f) = None ->
  select_failure (transactions_answer f) = None ->
  summaries_fresh (store (after (fetch_both Date_getTime f) w)).
Proof.
  intros U Fa Ft. unfold after, fetch_both, bind.
  rewrite (fetchAccounts_request_some _ U).
  rewrite (@fetchTransactions_request_some _ u) by exact U.
  destruct (arrival f); unfold settle_accounts, settle_transactions.
  - rewrite (fetchAccounts_settle_fulfilled _ _ Fa).
    rewrite (fetchTransactions_settle_fulfilled _ _ Ft). cbn.
    apply with_isLoading_fresh, recalculated_fresh.
  - rewrite (fetchTransactions_settle_fulfilled _ _ Ft).
    rewrite (fetchAccounts_settle_fulfilled _ _ Fa). cbn.
    apply with_isLoading_fresh, recalculated_fresh.
Qed.

(** Without a user, the two fetches do nothing. *)
Lemma fetch_both_no_user (f : Refetch) (w : World) :
  user (store w) = None ->
  fetch_both Date_getTime f w = (Return tt, w).
Proof.
  intros U. unfold fetch_both, bind.
  rewrite (fetchAccounts_request_none _ U).
  rewrite (fetchTransactions_request_none _ U).
  destruct (arrival f); reflexivity.
Qed.

(* ================================================================== *)
(** * Failures and missing users *)

(** C5: when [addTransaction] is called with a user signed in and the
    remote insert fails, it returns [false] and the transactions in
    memory are what they were, in length and content; so are the accounts
    and the summaries. *)
Theorem addTransaction_insert_failure
    (transactionData : TransactionInsert.t) (p : Settled (option JsError))
    (f : Refetch) (w : World) (u : User) (e : JsError) :
  user (store w) = Some u ->
  call_failure p = Some e ->
  let w' := after (addTransaction Date_getTime now transactionData p f) w in
  completion (addTransaction Date_getTime now transactionData p f) w
  = Return false
  /\ transactions (store w') = transactions (store w)
  /\ List.length (transactions (store w')) = List.length (transactions (store w))
  /\ accounts (store w') = accounts (store w)
  /\ summaries (store w') = summaries (store w)
  /\ console w' = (console w ++ [Failed_to_add_transaction e])%list.
Proof.
  intros U F. unfold completion, after, addTransaction. run_action.
  rewrite U.
  destruct p as [[e'|]|e']; cbn in F; inversion F; subst; cbn;
    repeat split.
Qed.

(** C6: when [fetchAccounts], respectively [fetchTransactions], is called
    with a user signed in and the remote select fails, the collection in
    memory is empty afterwards, whatever it held, and [isLoading] is
    [false]. *)
Theorem fetch_failure_empties_collection
    (pa : Settled (Response AccountRow.t))
    (pt : Settled (Response TransactionRow.t))
    (w : World) (u : User) (ea et : JsError) :
  user (store w) = Some u ->
  select_failure pa = Some ea ->
  select_failure pt = Some et ->
  (accounts (store (after (fetchAccounts Date_getTime pa) w)) = []
   /\ isLoading (store (after (fetchAccounts Date_getTime pa) w)) = false
   /\ completion (fetchAccounts Date_getTime pa) w = Return tt)
  /\ (transactions (store (after (fetchTransactions Date_getTime pt) w)) = []
      /\ isLoading (store (after (fetchTransactions Date_getTime pt) w)) = false
      /\ completion (fetchTransactions Date_getTime pt) w = Return tt).
Proof.
  intros U Fa Ft. unfold after, completion.
  rewrite fetchAccounts_in_two_parts, fetchTransactions_in_two_parts.
  unfold bind.
  rewrite (fetchAccounts_request_some _ U), (fetchTransactions_request_some _ U).
  rewrite (fetchAccounts_settle_failed _ _ Fa).
  rewrite (fetchTransactions_settle_failed _ _ Ft).
  cbn. repeat split.
Qed.

Lemma never_throws_checkSession (p : Settled SessionResponse) (f : Refetch) :
  never_throws (checkSession Date_getTime p f).
Proof. unfold checkSession. no_throw. Qed.

(** C7: when the auth service reports no user, [checkSession] leaves
    [accounts] and [transactions] empty and [isSessionLoading] [false];
    and whatever the remote calls do, [checkSession] returns to its
    caller without throwing: where [getSession] fails, the failure is
    logged and [session] is left as it was. *)
Theorem checkSession_no_user_and_never_throws
    (p : Settled SessionResponse) (f : Refetch) (w : World) :
  let w' := after (checkSession Date_getTime p f) w in
  (session_failure p = None ->
   user_of (session_of p) = None ->
   accounts (store w') = []
   /\ transactions (store w') = []
   /\ isSessionLoading (store w') = false)
  /\ completion (checkSession Date_getTime p f) w = Return tt
  /\ (forall e,
        session_failure p = Some e ->
        console w' = (console w ++ [Session_check_failed e])%list
        /\ session (store w') = session (store w)
        /\ isSessionLoading (store w') = false).
Proof.
  cbv zeta. split; [|split].
  - intros F N. destruct p as [[se [e|]]|e]; try discriminate F.
    cbn in N. unfold after, checkSession. run_action. rewrite N.
    cbn. repeat split.
  - apply never_throws_unit, never_throws_checkSession.
  - intros e F. destruct p as [[se [e'|]]|e']; cbn in F; inversion F; subst;
      cbn; repeat split.
Qed.

(** C8: the timestamps of a mapped row are the instants of the strings of
    the wire row, as [new Date(...).getTime()] gives them, and a nullable
    field that is [null] on the wire is absent from the local model. *)
Theorem mapped_timestamps_and_absent_fields
    (account : AccountRow.t) (transaction : TransactionRow.t) :
  Account.created_at (mapAccount Date_getTime account)
  = Date_getTime (AccountRow.created_at account)
  /\ Transaction.timestamp (mapTransaction Date_getTime transaction)
     = Date_getTime (TransactionRow.timestamp transaction)
  /\ Transaction.created_at (mapTransaction Date_getTime transaction)
     = Date_getTime (TransactionRow.created_at transaction)
  /\ (TransactionRow.notes transaction = null ->
      Transaction.notes (mapTransaction Date_getTime transaction) = undefined)
  /\ (TransactionRow.category transaction = null ->
      Transaction.category (mapTransaction Date_getTime transaction) = undefined)
  /\ (TransactionRow.related_transaction_id transaction = null ->
      Transaction.related_transaction_id (mapTransaction Date_getTime transaction)
      = undefined).
Proof.
  repeat split; cbn; intros ->; reflexivity.
Qed.

(** C9: without a user, [fetchAccounts] and [fetchTransactions] return
    with no request sent and nothing changed, and [addTransaction]
    returns [false] likewise; [updateTransaction] and [deleteTransaction]
    send their request all the same, and return [true] when it
    succeeds. *)
Theorem no_user_short_circuits
    (pa : Settled (Response AccountRow.t))
    (pt : Settled (Response TransactionRow.t))
    (transactionData : TransactionInsert.t)
    (id : number) (changes : TransactionUpdate.t)
    (p : Settled (option JsError)) (f : Refetch) (w : World) :
  user (store w) = None ->
  fetchAccounts Date_getTime pa w = (Return tt, w)
  /\ fetchTransactions Date_getTime pt w = (Return tt, w)
  /\ addTransaction Date_getTime now transactionData p f w = (Return false, w)
  /\ remote (after (updateTransaction Date_getTime id changes p f) w)
     = (remote w ++ [update_transaction id changes])%list
  /\ remote (after (deleteTransaction Date_getTime id p f) w)
     = (remote w ++ [delete_transaction id])%list
  /\ (call_failure p = None ->
      completion (updateTransaction Date_getTime id changes p f) w = Return true
      /\ completion (deleteTransaction Date_getTime id p f) w = Return true).
Proof.
  intros U.
  split; [|split; [|split]].
  - unfold fetchAccounts. run_action. rewrite U. reflexivity.
  - unfold fetchTransactions. run_action. rewrite U. reflexivity.
  - unfold addTransaction. run_action. rewrite U. reflexivity.
  - assert (B : forall w0, user (store w0) = None ->
                  fetch_both Date_getTime f w0 = (Return tt, w0))
      by (intros; apply fetch_both_no_user; assumption).
    unfold after, completion, updateTransaction, deleteTransaction.
    unfold bind at 1 2 3 4, try_finally, try_catch, send, set, await, throw_if.
    destruct p as [[e|]|e]; cbn.
    + repeat split; discriminate.
    + unfold bind. rewrite !B by exact U. cbn. repeat split.
    + repeat split; discriminate.
Qed.

(** C10: [mapTransaction] makes [notes], [category] and
    [related_transaction_id] absent whenever the wire value is falsy, not
    only when it is [null]: an empty string for [notes] or [category],
    and 0 for [related_transaction_id], are dropped. *)
Theorem mapTransaction_drops_falsy_fields (transaction : TransactionRow.t) :
  (TransactionRow.notes transaction = value "" ->
   Transaction.notes (mapTransaction Date_getTime transaction) = undefined)
  /\ (TransactionRow.category transaction = value "" ->
      Transaction.category (mapTransaction Date_getTime transaction) = undefined)
  /\ (TransactionRow.related_transaction_id transaction = value 0%float ->
      Transaction.related_transaction_id (mapTransaction Date_getTime transaction)
      = undefined).
Proof.
  repeat split; cbn; intros ->; reflexivity.
Qed.

(* ================================================================== *)
(** * More on the actions *)

#[local] Arguments fetch_both : simpl never.

(** The two fetches answered without an error: the store holds the rows
    fetched and their summaries, whichever answer came first. *)
Lemma fetch_both_fulfilled (f : Refetch) (w : World) (u : User) :
  user (store w) = Some u ->
  select_failure (accounts_answer f) = None ->
  select_failure (transactions_answer f) = None ->
  fetch_both Date_getTime f w
  = (Return tt,
     {| store :=
          with_isLoading false
            (recalculated
               (with_transactions
                  (map (mapTransaction Date_getTime)
                       (rows_of (transactions_answer f)))
                  (with_accounts
                     (map (mapAccount Date_getTime) (rows_of (accounts_answer f)))
                     (store w))));
        remote := (remote w ++ [select_accounts (user_id u)])
                    ++ [select_transactions (user_id u)];
        console := console w |}).
Proof.
  intros U Fa Ft. unfold fetch_both, bind.
  rewrite (fetchAccounts_request_some _ U).
  rewrite (@fetchTransactions_request_some _ u) by exact U.
  destruct (arrival f); unfold settle_accounts, settle_transactions.
  - rewrite (fetchAccounts_settle_fulfilled _ _ Fa).
    rewrite (fetchTransactions_settle_fulfilled _ _ Ft).
    rewrite !recalculated_summaries. reflexivity.
  - rewrite (fetchTransactions_settle_fulfilled _ _ Ft).
    rewrite (fetchAccounts_settle_fulfilled _ _ Fa).
    rewrite !recalculated_summaries. reflexivity.
Qed.

(** X1: when both selects of a joint refetch succeed, the store, the
    requests sent and the console afterwards are the same whether the
    accounts or the transactions are answered first. *)
Theorem fetch_both_order_irrelevant
    (pa : Settled (Response AccountRow.t))
    (pt : Settled (Response TransactionRow.t)) (w : World) (u : User) :
  user (store w) = Some u ->
  select_failure pa = None ->
  select_failure pt = None ->
  fetch_both Date_getTime
    {| accounts_answer := pa; transactions_answer := pt;
       arrival := accounts_first |} w
  = fetch_both Date_getTime
      {| accounts_answer := pa; transactions_answer := pt;
         arrival := transactions_first |} w.
Proof.
  intros U Fa Ft.
  rewrite (@fetch_both_fulfilled
             {| accounts_answer := pa; transactions_answer := pt;
                arrival := accounts_first |} w u U Fa Ft).
  rewrite (@fetch_both_fulfilled
             {| accounts_answer := pa; transactions_answer := pt;
                arrival := transactions_first |} w u U Fa Ft).
  reflexivity.
Qed.

Lemma never_throws_await_guarded {A} (p : Settled (option JsError))
    (k : Action A) (handler : JsError -> Action A) :
  (forall e, never_throws (handler e)) ->
  never_throws (try_catch (error <- await p ;; throw_if error ;; k) handler).
Proof. intros H. apply never_throws_try_catch, H. Qed.

(** X2: no action of the store lets an exception reach its caller,
    whatever the backend answers: a rejected promise or a reported error
    ends in the action's [catch]. *)
Theorem store_actions_never_throw
    (pa : Settled (Response AccountRow.t))
    (pt : Settled (Response TransactionRow.t))
    (p : Settled (option JsError)) (f : Refetch)
    (transactionData : TransactionInsert.t)
    (id : number) (changes : TransactionUpdate.t)
    (event : AuthEvent) (se : option Session) :
  never_throws (fetchAccounts Date_getTime pa)
  /\ never_throws (fetchTransactions Date_getTime pt)
  /\ never_throws (signOut p)
  /\ never_throws (addTransaction Date_getTime now transactionData p f)
  /\ never_throws (updateTransaction Date_getTime id changes p f)
  /\ never_throws (deleteTransaction Date_getTime id p f)
  /\ never_throws (onAuthStateChange Date_getTime event se f).
Proof.
  pose proof (fetch_both_returns f) as B.
  split; [|split; [|split; [|split; [|split; [|split]]]]].
  - unfold fetchAccounts. no_throw.
  - unfold fetchTransactions. no_throw.
  - unfold signOut. no_throw.
  - unfold addTransaction. no_throw.
  - unfold updateTransaction. no_throw.
  - unfold deleteTransaction. no_throw.
  - unfold onAuthStateChange, setSession.
    apply never_throws_bind; [auto with throws|]. intros _.
    destruct event; auto with throws.
Qed.

(** Whatever [body] does, [isLoading] is [false] after
    [try { body } finally { set({ isLoading: false }) }]. *)
Lemma finally_clears_isLoading {A} (body : Action A) (w : World) :
  isLoading (store (after (try_finally body (set (with_isLoading false))) w))
  = false.
Proof.
  unfold after, try_finally, set. destruct (body w) as [r w1]. reflexivity.
Qed.

(** X3: [isLoading] is [false] when [updateTransaction] or
    [deleteTransaction] completes, and when [addTransaction],
    [fetchAccounts] or [fetchTransactions] completes with a user signed
    in, whether the remote calls succeeded or not. *)
Theorem isLoading_cleared
    (pa : Settled (Response AccountRow.t))
    (pt : Settled (Response TransactionRow.t))
    (p : Settled (option JsError)) (f : Refetch)
    (transactionData : TransactionInsert.t)
    (id : number) (changes : TransactionUpdate.t) (w : World) :
  isLoading (store (after (updateTransaction Date_getTime id changes p f) w))
  = false
  /\ isLoading (store (after (deleteTransaction Date_getTime id p f) w)) = false
  /\ (forall u, user (store w) = Some u ->
        isLoading
          (store (after (addTransaction Date_getTime now transactionData p f) w))
        = false
        /\ isLoading (store (after (fetchAccounts Date_getTime pa) w)) = false
        /\ isLoading (store (after (fetchTransactions Date_getTime pt) w)) = false).
Proof.
  split; [|split].
  - unfold updateTransaction, after, bind at 1. cbn [set].
    apply finally_clears_isLoading.
  - unfold deleteTransaction, after, bind at 1. cbn [set].
    apply finally_clears_isLoading.
  - intros u U. split; [|split].
    + unfold addTransaction, after, bind at 1, get. cbn [fst snd]. rewrite U.
      unfold bind at 1. cbn [set]. apply finally_clears_isLoading.
    + unfold fetchAccounts, after, bind at 1, get. cbn [fst snd]. rewrite U.
      unfold bind at 1. cbn [set]. apply finally_clears_isLoading.
    + unfold fetchTransactions, after, bind at 1, get. cbn [fst snd]. rewrite U.
      unfold bind at 1. cbn [set]. apply finally_clears_isLoading.
Qed.

(** X4: when the remote update, respectively delete, fails,
    [updateTransaction], respectively [deleteTransaction], returns
    [false], logs the failure and sends no refetch; session, user,
    accounts, transactions and summaries are what they were. No user need
    be signed in. *)
Theorem update_delete_failure
    (id : number) (changes : TransactionUpdate.t)
    (p : Settled (option JsError)) (f : Refetch) (w : World) (e : JsError) :
  call_failure p = Some e ->
  (updateTransaction Date_getTime id changes p f w
   = (Return false,
      {| store := with_isLoading false (store w);
         remote := remote w ++ [update_transaction id changes];
         console := console w ++ [Failed_to_update_transaction id e] |}))
  /\ (deleteTransaction Date_getTime id p f w
      = (Return false,
         {| store := with_isLoading false (store w);
            remote := remote w ++ [delete_transaction id];
            console := console w ++ [Failed_to_delete_transaction id e] |})).
Proof.
  intros F. unfold updateTransaction, deleteTransaction.
  destruct p as [[e'|]|e']; cbn in F; inversion F; subst; split; reflexivity.
Qed.

(** X5: [signOut] clears the session, the user and both collections when
    the auth call succeeds, leaving the three summaries as they were; when
    the call fails it logs the failure and leaves the whole store as it
    was. *)
Theorem signOut_outcomes (p : Settled (option JsError)) (w : World) :
  (call_failure p = None ->
   let s' := store (after (signOut p) w) in
   session s' = None /\ user s' = None
   /\ accounts s' = [] /\ transactions s' = []
   /\ summaries s' = summaries (store w)
   /\ console (after (signOut p) w) = console w)
  /\ (forall e, call_failure p = Some e ->
        store (after (signOut p) w) = store w
        /\ console (after (signOut p) w)
           = (console w ++ [Sign_out_failed e])%list)
  /\ remote (after (signOut p) w) = (remote w ++ [auth_signOut])%list.
Proof.
  split; [|split].
  - intros F. destruct p as [[e|]|e]; try discriminate F. cbn.
    repeat split.
  - intros e F. destruct p as [[e'|]|e']; cbn in F; inversion F; subst;
      split; reflexivity.
  - destruct p as [[e|]|e]; reflexivity.
Qed.

(** The transaction mutations, once the remote call has succeeded. *)
Lemma mutation_then_refetch (c : RemoteCall) (l : JsError -> LogEntry)
    (f : Refetch) (w : World) (u : User) :
  user (store w) = Some u ->
  select_failure (accounts_answer f) = None ->
  select_failure (transactions_answer f) = None ->
  try_finally
    (try_catch
       (send c ;;
        error <- await done ;;
        throw_if error ;;
        fetch_both Date_getTime f ;;
        ret true)
       (fun e => console_error (l e) ;; ret false))
    (set (with_isLoading false))
    {| store := with_isLoading true (store w);
       remote := remote w; console := console w |}
  = (Return true,
     {| store :=
          with_isLoading false
            (recalculated
               (with_transactions
                  (map (mapTransaction Date_getTime)
                       (rows_of (transactions_answer f)))
                  (with_accounts
                     (map (mapAccount Date_getTime) (rows_of (accounts_answer f)))
                     (store w))));
        remote := ((remote w ++ [c]) ++ [select_accounts (user_id u)])
                    ++ [select_transactions (user_id u)];
        console := console w |}).
Proof.
  intros U Fa Ft.
  unfold try_finally, try_catch, done, await, throw_if, send, ret.
  unfold bind at 1 2 3 4. cbn [fst snd store remote console].
  rewrite (@fetch_both_fulfilled f _ u) by assumption.
  cbn. rewrite !recalculated_summaries. reflexivity.
Qed.

(** X6: with a user signed in, a remote mutation that succeeds and two
    selects that succeed, [addTransaction], [updateTransaction] and
    [deleteTransaction] return [true]; the store then holds the rows
    fetched, mapped, in place of what it held, with fresh summaries and
    [isLoading] [false]; and the requests sent are the mutation, the
    select of the accounts and the select of the transactions, in this
    order. The row inserted carries the user's id, and the time of the
    call when the form gave no timestamp. *)
Theorem mutation_success
    (transactionData : TransactionInsert.t)
    (id : number) (changes : TransactionUpdate.t)
    (f : Refetch) (w : World) (u : User) :
  user (store w) = Some u ->
  select_failure (accounts_answer f) = None ->
  select_failure (transactions_answer f) = None ->
  let loaded :=
    with_isLoading false
      (recalculated
         (with_transactions
            (map (mapTransaction Date_getTime) (rows_of (transactions_answer f)))
            (with_accounts
               (map (mapAccount Date_getTime) (rows_of (accounts_answer f)))
               (store w)))) in
  let refetched c :=
    {| store := loaded;
       remote := ((remote w ++ [c]) ++ [select_accounts (user_id u)])
                   ++ [select_transactions (user_id u)];
       console := console w |} in
  summaries_fresh loaded
  /\ addTransaction Date_getTime now transactionData done f w
     = (Return true,
        refetched
          (insert_transaction
             {| payload_data := transactionData;
                payload_user_id := user_id u;
                payload_timestamp :=
                  match TransactionInsert.timestamp transactionData with
                  | defined t => if String.eqb t "" then now else t
                  | undefined => now
                  end |}))
  /\ updateTransaction Date_getTime id changes done f w
     = (Return true, refetched (update_transaction id changes))
  /\ deleteTransaction Date_getTime id done f w
     = (Return true, refetched (delete_transaction id)).
Proof.
  intros U Fa Ft. cbv zeta. split; [|split; [|split]].
  - apply with_isLoading_fresh, recalculated_fresh.
  - unfold addTransaction, bind at 1, get. cbn [fst snd]. rewrite U.
    unfold bind at 1. cbn [set].
    rewrite (@mutation_then_refetch _ _ f w u U Fa Ft).
    unfold timestamp_or_now, truthy_string.
    destruct (TransactionInsert.timestamp transactionData) as [|t];
      [reflexivity|].
    destruct (String.eqb t ""); reflexivity.
  - unfold updateTransaction, bind at 1. cbn [set].
    rewrite (@mutation_then_refetch _ _ f w u U Fa Ft). reflexivity.
  - unfold deleteTransaction, bind at 1. cbn [set].
    rewrite (@mutation_then_refetch _ _ f w u U Fa Ft). reflexivity.
Qed.

Lemma guarded_refetch_completion (c : RemoteCall) (l : JsError -> LogEntry)
    (p : Settled (option JsError)) (f : Refetch) (w : World) :
  completion
    (try_finally
       (try_catch
          (send c ;;
           error <- await p ;;
           throw_if error ;;
           fetch_both Date_getTime f ;;
           ret true)
          (fun e => console_error (l e) ;; ret false))
       (set (with_isLoading false))) w
  = Return (match call_failure p with None => true | Some _ => false end).
Proof.
  unfold completion, try_finally, try_catch, send.
  destruct p as [[e|]|e]; try reflexivity.
  unfold await, throw_if, ret. unfold bind at 1 2 3 4. cbn [fst snd].
  pose proof (never_throws_unit
                {| store := store w; remote := remote w ++ [c];
                   console := console w |}
                (fetch_both_returns f)) as R.
  unfold completion in R.
  destruct (fetch_both Date_getTime f _) as [r w1]. cbn in R. subst r.
  reflexivity.
Qed.

(** X7: the boolean a transaction mutation returns reports the remote
    mutation alone: [true] exactly when the insert, update or delete
    succeeded, also when a select of the refetch that follows fails. *)
Theorem mutation_result_is_remote_outcome
    (transactionData : TransactionInsert.t)
    (id : number) (changes : TransactionUpdate.t)
    (p : Settled (option JsError)) (f : Refetch) (w : World) :
  let outcome := match call_failure p with None => true | Some _ => false end in
  completion (updateTransaction Date_getTime id changes p f) w = Return outcome
  /\ completion (deleteTransaction Date_getTime id p f) w = Return outcome
  /\ (forall u, user (store w) = Some u ->
        completion (addTransaction Date_getTime now transactionData p f) w
        = Return outcome).
Proof.
  cbv zeta. split; [|split].
  - unfold updateTransaction, completion, bind at 1. cbn [set].
    apply guarded_refetch_completion.
  - unfold deleteTransaction, completion, bind at 1. cbn [set].
    apply guarded_refetch_completion.
  - intros u U. unfold addTransaction, completion, bind at 1, get.
    cbn [fst snd]. rewrite U. unfold bind at 1. cbn [set].
    apply guarded_refetch_completion.
Qed.

(** X8: a fetch that succeeds replaces its collection wholesale: with a
    user signed in, after [fetchAccounts] the accounts are the rows of the
    answer, one account per row in the order of the rows, with nothing
    kept of the accounts held before; the transactions are untouched and
    the one request sent is the select for this user. An answer without
    rows ([data] [null]) gives the empty collection. Likewise for
    [fetchTransactions]. *)
Theorem fetch_success_replaces_collection
    (pa : Settled (Response AccountRow.t))
    (pt : Settled (Response TransactionRow.t)) (w : World) (u : User) :
  user (store w) = Some u ->
  select_failure pa = None ->
  select_failure pt = None ->
  let wa := after (fetchAccounts Date_getTime pa) w in
  let wt := after (fetchTransactions Date_getTime pt) w in
  (accounts (store wa) = map (mapAccount Date_getTime) (rows_of pa)
   /\ map Account.id (accounts (store wa)) = map AccountRow.id (rows_of pa)
   /\ map Account.current_balance (accounts (store wa))
      = map AccountRow.current_balance (rows_of pa)
   /\ transactions (store wa) = transactions (store w)
   /\ remote wa = (remote w ++ [select_accounts (user_id u)])%list)
  /\ (transactions (store wt) = map (mapTransaction Date_getTime) (rows_of pt)
      /\ map Transaction.id (transactions (store wt))
         = map TransactionRow.id (rows_of pt)
      /\ map Transaction.weightChange (transactions (store wt))
         = map TransactionRow.weight_change (rows_of pt)
      /\ accounts (store wt) = accounts (store w)
      /\ remote wt = (remote w ++ [select_transactions (user_id u)])%list).
Proof.
  intros U Fa Ft. cbv zeta. unfold after.
  rewrite fetchAccounts_in_two_parts, fetchTransactions_in_two_parts.
  unfold bind.
  rewrite (fetchAccounts_request_some _ U), (fetchTransactions_request_some _ U).
  rewrite (fetchAccounts_settle_fulfilled _ _ Fa).
  rewrite (fetchTransactions_settle_fulfilled _ _ Ft).
  rewrite !recalculated_summaries. cbn.
  rewrite !map_map. cbn. repeat split.
Qed.

(** X9: [recalculateSummaries] is idempotent and writes the three
    summaries only: a second run changes nothing, and the session, the
    user, both collections, both loading flags, the requests sent and the
    console are what they were. *)
Theorem recalculateSummaries_idempotent_frame (w : World) :
  let w' := after recalculateSummaries w in
  after recalculateSummaries w' = w'
  /\ summaries_fresh (store w')
  /\ with_summaries (overallNetCash (store w)) (weightOnHand (store w))
       (dollarPerGramRatio (store w)) (store w')
     = store w
  /\ remote w' = remote w
  /\ console w' = console w.
Proof.
  cbv zeta. unfold after. rewrite !recalculateSummaries_run. cbn.
  pose proof (recalculated_fresh (store w)) as F.
  unfold summaries_fresh in F. fold (recalculated (recalculated (store w))) in F.
  rewrite F. split; [reflexivity|]. split; [apply recalculated_fresh|].
  rewrite recalculated_summaries. repeat split.
Qed.

(** X10: what the auth listener does to the store. For an event other
    than [SIGNED_IN] and [SIGNED_OUT] it sets the session and its user and
    nothing else. On [SIGNED_OUT] it sets them and recalculates: the
    collections are kept, not emptied, and the summaries are fresh. On
    [SIGNED_IN] with a session that has no user, no request is sent. *)
Theorem onAuthStateChange_effects
    (se : option Session) (f : Refetch) (name : string) (w : World) :
  onAuthStateChange Date_getTime (other_event name) se f w
  = (Return tt,
     {| store := with_session se (user_of se) (store w);
        remote := remote w; console := console w |})
  /\ (let w' := after (onAuthStateChange Date_getTime SIGNED_OUT se f) w in
      session (store w') = se
      /\ user (store w') = user_of se
      /\ accounts (store w') = accounts (store w)
      /\ transactions (store w') = transactions (store w)
      /\ summaries_fresh (store w')
      /\ remote w' = remote w)
  /\ (user_of se = None ->
      onAuthStateChange Date_getTime SIGNED_IN se f w
      = (Return tt,
         {| store := with_session se None (store w);
            remote := remote w; console := console w |})).
Proof.
  split; [reflexivity|]. split.
  - cbv zeta. unfold after, onAuthStateChange, setSession, bind, set.
    rewrite recalculateSummaries_run. cbn [fst snd store remote console].
    split; [rewrite recalculated_summaries; reflexivity|].
    split; [rewrite recalculated_summaries; reflexivity|].
    split; [rewrite recalculated_summaries; reflexivity|].
    split; [rewrite recalculated_summaries; reflexivity|].
    split; [apply recalculated_fresh | reflexivity].
  - intros N. unfold onAuthStateChange, setSession, bind, set.
    rewrite fetch_both_no_user by exact N. rewrite N. reflexivity.
Qed.

Lemma with_isSessionLoading_fresh (b : bool) (s : AppState) :
  summaries_fresh s -> summaries_fresh (with_isSessionLoading b s).
Proof. rewrite !summaries_fresh_fields. cbn. tauto. Qed.

(** X11: [checkSession] finding a session with a user, and both selects
    succeeding: the session and its user are stored, the two collections
    are the rows fetched, the summaries are fresh, both loading flags are
    [false], and the requests sent are [getSession] and the two selects
    for this user. *)
Theorem checkSession_with_user
    (r : SessionResponse) (se : Session) (u : User) (f : Refetch) (w : World) :
  response_session r = Some se ->
  session_error r = None ->
  session_user se = Some u ->
  select_failure (accounts_answer f) = None ->
  select_failure (transactions_answer f) = None ->
  let w' := after (checkSession Date_getTime (Fulfilled r) f) w in
  session (store w') = Some se
  /\ user (store w') = Some u
  /\ accounts (store w')
     = map (mapAccount Date_getTime) (rows_of (accounts_answer f))
  /\ transactions (store w')
     = map (mapTransaction Date_getTime) (rows_of (transactions_answer f))
  /\ summaries_fresh (store w')
  /\ isSessionLoading (store w') = false
  /\ isLoading (store w') = false
  /\ remote w'
     = (remote w ++ [auth_getSession; select_accounts (user_id u);
                     select_transactions (user_id u)])%list.
Proof.
  intros S E U Fa Ft. cbv zeta.
  destruct r as [rs re]. cbn in S, E. subst rs re.
  assert (R : checkSession Date_getTime
                (Fulfilled {| response_session := Some se;
                              session_error := None |}) f w
              = (Return tt,
                 {| store :=
                      with_isSessionLoading false
                        (with_isLoading false
                           (recalculated
                              (with_transactions
                                 (map (mapTransaction Date_getTime)
                                      (rows_of (transactions_answer f)))
                                 (with_accounts
                                    (map (mapAccount Date_getTime)
                                         (rows_of (accounts_answer f)))
                                    (with_session (Some se) (Some u)
                                       (with_isSessionLoading true (store w)))))));
                    remote := ((remote w ++ [auth_getSession])
                                 ++ [select_accounts (user_id u)])
                                ++ [select_transactions (user_id u)];
                    console := console w |})).
  { unfold checkSession. run_action. rewrite U.
    rewrite (@fetch_both_fulfilled f _ u)
      by (cbn; first [assumption | reflexivity]).
    reflexivity. }
  unfold after. rewrite R. cbn [fst snd store remote console].
  rewrite <- !app_assoc. cbn [app].
  split; [rewrite recalculated_summaries; reflexivity|].
  split; [rewrite recalculated_summaries; reflexivity|].
  split; [rewrite recalculated_summaries; reflexivity|].
  split; [rewrite recalculated_summaries; reflexivity|].
  split; [apply with_isSessionLoading_fresh, with_isLoading_fresh,
            recalculated_fresh|].
  split; [reflexivity|]. split; reflexivity.
Qed.

(** X12: [mapTransaction] loses no note, category or related id that
    holds a value: a non-empty [notes] or [category] and a
    [related_transaction_id] other than 0 and NaN are kept as they are,
    and the field is absent only for [null], the empty string, 0 and
    NaN. *)
Theorem mapTransaction_keeps_truthy_fields (transaction : TransactionRow.t) :
  let tx := mapTransaction Date_getTime transaction in
  (forall s, Transaction.notes tx = defined s
             <-> TransactionRow.notes transaction = value s /\ s <> "")
  /\ (forall s, Transaction.category tx = defined s
                <-> TransactionRow.category transaction = value s /\ s <> "")
  /\ (forall x, Transaction.related_transaction_id tx = defined x
                <-> TransactionRow.related_transaction_id transaction = value x
                    /\ is_zero x = false /\ isNaN x = false)
  /\ (Transaction.notes tx = undefined
      <-> TransactionRow.notes transaction = null
          \/ TransactionRow.notes transaction = value "")
  /\ (Transaction.category tx = undefined
      <-> TransactionRow.category transaction = null
          \/ TransactionRow.category transaction = value "").
Proof.
  cbv zeta. cbn.
  assert (S : forall (v : nullable string) (s : string),
            or_undefined truthy_string v = defined s <-> v = value s /\ s <> "").
  { intros [|t] s; cbn; unfold truthy_string.
    - split; [discriminate | intros [H _]; discriminate H].
    - destruct (String.eqb_spec t ""); cbn.
      + split; [discriminate|]. intros [H N]. inversion H. congruence.
      + split; [intros H; inversion H; subst; split; [reflexivity | assumption]
               | intros [H _]; inversion H; reflexivity]. }
  assert (U : forall v : nullable string,
            or_undefined truthy_string v = undefined
            <-> v = null \/ v = value "").
  { intros [|t]; cbn; unfold truthy_string.
    - split; [left; reflexivity | reflexivity].
    - destruct (String.eqb_spec t ""); cbn.
      + subst. split; [right; reflexivity | reflexivity].
      + split; [discriminate|]. intros [H|H]; inversion H. congruence. }
  split; [apply S|]. split; [apply S|]. split; [|split; apply U].
  intros x. destruct (TransactionRow.related_transaction_id transaction) as [|y];
    cbn; unfold truthy_number, is_zero.
  - split; [discriminate | intros [H _]; discriminate H].
  - destruct (y =? 0)%float eqn:Z; destruct (isNaN y) eqn:N; cbn.
    + split; [discriminate|]. intros [H [Z' _]]. inversion H; subst. congruence.
    + split; [discriminate|]. intros [H [Z' _]]. inversion H; subst. congruence.
    + split; [discriminate|]. intros [H [_ N']]. inversion H; subst. congruence.
    + split.
      * intros H. inversion H; subst. repeat split; assumption.
      * intros [H _]. inversion H; reflexivity.
Qed.

Lemma no_sales_filter (txs : list Transaction.t) :
  (forall tx, In tx txs -> is_sale tx = false) -> sales_of txs = [].
Proof.
  intros H. unfold sales_of. induction txs as [|tx txs IH]; [reflexivity|].
  cbn. rewrite (H tx (or_introl eq_refl)). apply IH.
  intros y Hy. apply H. right. exact Hy.
Qed.

(** X13: with no transaction of type Sale in memory, whatever the other
    transactions carry, [recalculateSummaries] leaves the ratio [null];
    with no account the net cash is 0, and with no transaction the weight
    on hand is 0. *)
Theorem summaries_without_data (w : World) :
  let s' := store (after recalculateSummaries w) in
  ((forall tx, In tx (transactions (store w)) -> is_sale tx = false) ->
   dollarPerGramRatio s' = None)
  /\ (accounts (store w) = [] -> overallNetCash s' = 0%float)
  /\ (transactions (store w) = [] ->
      weightOnHand s' = 0%float /\ dollarPerGramRatio s' = None).
Proof.
  cbv zeta. unfold after. rewrite recalculateSummaries_eq. cbn.
  split; [|split].
  - intros H. unfold sale_weights, sale_amounts.
    rewrite (no_sales_filter _ H). reflexivity.
  - intros ->. reflexivity.
  - intros ->. split; reflexivity.
Qed.

(** What the mutations return, for the handlers that call them. *)
Lemma updateTransaction_completion
    (id : number) (changes : TransactionUpdate.t)
    (p : Settled (option JsError)) (f : Refetch) (w : World) :
  completion (updateTransaction Date_getTime id changes p f) w
  = Return (match call_failure p with None => true | Some _ => false end).
Proof.
  unfold updateTransaction, completion, bind at 1. cbn [set].
  apply guarded_refetch_completion.
Qed.

Lemma addTransaction_completion
    (transactionData : TransactionInsert.t)
    (p : Settled (option JsError)) (f : Refetch) (w : World) (u : User) :
  user (store w) = Some u ->
  completion (addTransaction Date_getTime now transactionData p f) w
  = Return (match call_failure p with None => true | Some _ => false end).
Proof.
  intros U. unfold addTransaction, completion, bind at 1, get.
  cbn [fst snd]. rewrite U. unfold bind at 1. cbn [set].
  apply guarded_refetch_completion.
Qed.

Lemma addTransaction_no_user
    (transactionData : TransactionInsert.t)
    (p : Settled (option JsError)) (f : Refetch) (w : World) :
  user (store w) = None ->
  addTransaction Date_getTime now transactionData p f w = (Return false, w).
Proof. intros U. unfold addTransaction. run_action. rewrite U. reflexivity. Qed.

(** A settled fetch leaves the session and the user alone. *)
Lemma fetchAccounts_settle_keeps_session
    (p : Settled (Response AccountRow.t)) (w : World) :
  session (store (after (fetchAccounts_settle Date_getTime p) w))
  = session (store w).
Proof.
  unfold after. destruct (select_failure p) as [e|] eqn:F.
  - rewrite (fetchAccounts_settle_failed _ _ F). reflexivity.
  - rewrite (fetchAccounts_settle_fulfilled _ _ F).
    rewrite recalculated_summaries. reflexivity.
Qed.

Lemma fetchTransactions_settle_keeps_session
    (p : Settled (Response TransactionRow.t)) (w : World) :
  session (store (after (fetchTransactions_settle Date_getTime p) w))
  = session (store w).
Proof.
  unfold after. destruct (select_failure p) as [e|] eqn:F.
  - rewrite (fetchTransactions_settle_failed _ _ F). reflexivity.
  - rewrite (fetchTransactions_settle_fulfilled _ _ F).
    rewrite recalculated_summaries. reflexivity.
Qed.

Lemma fetch_both_keeps_session (f : Refetch) (w : World) :
  session (store (after (fetch_both Date_getTime f) w)) = session (store w).
Proof.
  unfold after, fetch_both, bind.
  destruct (user (store w)) as [u|] eqn:U.
  - rewrite (fetchAccounts_request_some _ U).
    rewrite (@fetchTransactions_request_some _ u) by exact U.
    pose proof (never_throws_fetchAccounts_settle (accounts_answer f)) as NA.
    pose proof (never_throws_fetchTransactions_settle (transactions_answer f))
      as NT.
    destruct (arrival f); unfold settle_accounts, settle_transactions.
    + pose proof (fetchAccounts_settle_keeps_session (accounts_answer f)) as KA.
      pose proof
        (fetchTransactions_settle_keeps_session (transactions_answer f)) as KT.
      unfold after in KA, KT.
      match goal with
      | |- context [fetchAccounts_settle _ _ ?w0] =>
          specialize (KA w0); destruct (NA w0) as [[] EA];
          unfold completion in EA;
          destruct (fetchAccounts_settle Date_getTime (accounts_answer f) w0)
            as [r1 w1]; cbn [fst snd] in *; subst r1
      end.
      specialize (KT w1).
      destruct (fetchTransactions_settle Date_getTime (transactions_answer f) w1)
        as [r2 w2]. cbn [fst snd] in *. rewrite KT, KA. reflexivity.
    + pose proof (fetchAccounts_settle_keeps_session (accounts_answer f)) as KA.
      pose proof
        (fetchTransactions_settle_keeps_session (transactions_answer f)) as KT.
      unfold after in KA, KT.
      match goal with
      | |- context [fetchTransactions_settle _ _ ?w0] =>
          specialize (KT w0); destruct (NT w0) as [[] ET];
          unfold completion in ET;
          destruct (fetchTransactions_settle Date_getTime
                      (transactions_answer f) w0)
            as [r1 w1]; cbn [fst snd] in *; subst r1
      end.
      specialize (KA w1).
      destruct (fetchAccounts_settle Date_getTime (accounts_answer f) w1)
        as [r2 w2]. cbn [fst snd] in *. rewrite KA, KT. reflexivity.
  - rewrite (fetchAccounts_request_none _ U).
    rewrite (fetchTransactions_request_none _ U).
    destruct (arrival f); reflexivity.
Qed.

(** X19: once [checkSession] has completed, [Root] no longer shows the
    spinner, whatever the backend answered: it shows the application when
    [getSession] gave a session, the sign-in form when it gave none, and,
    when [getSession] failed, whichever of the two goes with the session
    held before. *)
Theorem Root_after_checkSession
    (p : Settled SessionResponse) (f : Refetch) (w : World) :
  Root (store (after (checkSession Date_getTime p f) w))
  = match session_failure p with
    | Some _ =>
        match session (store w) with
        | Some _ => App_component
        | None => AuthForm_component
        end
    | None =>
        match session_of p with
        | Some _ => App_component
        | None => AuthForm_component
        end
    end.
Proof.
  unfold after.
  destruct p as [[se [e|]]|e]; try reflexivity.
  cbn [session_failure session_of response_session session_error].
  unfold checkSession. run_action.
  destruct (user_of se) as [u|] eqn:U.
  - pose proof (fetch_both_keeps_session f
                  {| store := with_session se (Some u)
                                (with_isSessionLoading true (store w));
                     remote := remote w ++ [auth_getSession];
                     console := console w |}) as K.
    pose proof (never_throws_unit
                  {| store := with_session se (Some u)
                                (with_isSessionLoading true (store w));
                     remote := remote w ++ [auth_getSession];
                     console := console w |}
                  (fetch_both_returns f)) as R.
    unfold after in K. unfold completion in R.
    destruct (fetch_both Date_getTime f _) as [r w1].
    cbn [fst snd] in *. subst r. cbn. unfold Root. cbn. rewrite K. reflexivity.
  - unfold Root. cbn. reflexivity.
Qed.

(** ** What an action can put in the collections *)

Lemma collections_from_refl (pa : Settled (Response AccountRow.t))
    (pt : Settled (Response TransactionRow.t)) (w w' : World) :
  accounts (store w') = accounts (store w) ->
  transactions (store w') = transactions (store w) ->
  collections_from Date_getTime pa pt w w'.
Proof. intros A T. split; left; assumption. Qed.

Lemma fetchAccounts_settle_collections
    (pa : Settled (Response AccountRow.t)) (w : World) :
  let w' := after (fetchAccounts_settle Date_getTime pa) w in
  (accounts (store w') = []
   \/ accounts (store w') = map (mapAccount Date_getTime) (rows_of pa))
  /\ transactions (store w') = transactions (store w).
Proof.
  cbv zeta. unfold after. destruct (select_failure pa) as [e|] eqn:F.
  - rewrite (fetchAccounts_settle_failed _ _ F). split; [left|]; reflexivity.
  - rewrite (fetchAccounts_settle_fulfilled _ _ F).
    rewrite recalculated_summaries. split; [right|]; reflexivity.
Qed.

Lemma fetchTransactions_settle_collections
    (pt : Settled (Response TransactionRow.t)) (w : World) :
  let w' := after (fetchTransactions_settle Date_getTime pt) w in
  (transactions (store w') = []
   \/ transactions (store w') = map (mapTransaction Date_getTime) (rows_of pt))
  /\ accounts (store w') = accounts (store w).
Proof.
  cbv zeta. unfold after. destruct (select_failure pt) as [e|] eqn:F.
  - rewrite (fetchTransactions_settle_failed _ _ F). split; [left|]; reflexivity.
  - rewrite (fetchTransactions_settle_fulfilled _ _ F).
    rewrite recalculated_summaries. split; [right|]; reflexivity.
Qed.

Lemma fetch_both_collections (f : Refetch) (w : World) :
  collections_from Date_getTime (accounts_answer f) (transactions_answer f)
    w (after (fetch_both Date_getTime f) w).
Proof.
  unfold after, fetch_both, bind.
  destruct (user (store w)) as [u|] eqn:U.
  - rewrite (fetchAccounts_request_some _ U).
    rewrite (@fetchTransactions_request_some _ u) by exact U.
    pose proof (fetchAccounts_settle_collections (accounts_answer f)) as KA.
    pose proof (fetchTransactions_settle_collections (transactions_answer f))
      as KT.
    pose proof (never_throws_fetchAccounts_settle (accounts_answer f)) as NA.
    pose proof (never_throws_fetchTransactions_settle (transactions_answer f))
      as NT.
    cbv zeta in KA, KT. unfold after in KA, KT.
    destruct (arrival f); unfold settle_accounts, settle_transactions.
    + match goal with
      | |- context [fetchAccounts_settle _ _ ?w0] =>
          specialize (KA w0); destruct (NA w0) as [[] EA];
          unfold completion in EA;
          destruct (fetchAccounts_settle Date_getTime (accounts_answer f) w0)
            as [r1 w1]; cbn [fst snd] in *; subst r1
      end.
      specialize (KT w1).
      destruct (fetchTransactions_settle Date_getTime (transactions_answer f) w1)
        as [r2 w2]. cbn [fst snd] in *.
      destruct KA as [KA1 KA2]. destruct KT as [KT1 KT2].
      split.
      * right. rewrite KT2. exact KA1.
      * right. exact KT1.
    + match goal with
      | |- context [fetchTransactions_settle _ _ ?w0] =>
          specialize (KT w0); destruct (NT w0) as [[] ET];
          unfold completion in ET;
          destruct (fetchTransactions_settle Date_getTime
                      (transactions_answer f) w0)
            as [r1 w1]; cbn [fst snd] in *; subst r1
      end.
      specialize (KA w1).
      destruct (fetchAccounts_settle Date_getTime (accounts_answer f) w1)
        as [r2 w2]. cbn [fst snd] in *.
      destruct KA as [KA1 KA2]. destruct KT as [KT1 KT2].
      split.
      * right. exact KA1.
      * right. rewrite KA2. exact KT1.
  - rewrite (fetchAccounts_request_none _ U).
    rewrite (fetchTransactions_request_none _ U).
    destruct (arrival f); cbn; apply collections_from_refl; reflexivity.
Qed.

Lemma guarded_refetch_collections (c : RemoteCall) (l : JsError -> LogEntry)
    (p : Settled (option JsError)) (f : Refetch) (w0 w : World) :
  accounts (store w) = accounts (store w0) ->
  transactions (store w) = transactions (store w0) ->
  collections_from Date_getTime (accounts_answer f) (transactions_answer f) w0
    (after
       (try_finally
          (try_catch
             (send c ;;
              error <- await p ;;
              throw_if error ;;
              fetch_both Date_getTime f ;;
              ret true)
             (fun e => console_error (l e) ;; ret false))
          (set (with_isLoading false))) w).
Proof.
  intros A T. unfold after, try_finally, try_catch, send.
  destruct p as [[e|]|e];
    try (cbn; apply collections_from_refl; assumption).
  unfold await, throw_if, ret. unfold bind at 1 2 3 4. cbn [fst snd].
  pose proof (fetch_both_collections f
                {| store := store w; remote := remote w ++ [c];
                   console := console w |}) as K.
  pose proof (never_throws_unit
                {| store := store w; remote := remote w ++ [c];
                   console := console w |}
                (fetch_both_returns f)) as R.
  unfold after in K. unfold completion in R.
  destruct (fetch_both Date_getTime f _) as [r w1]. cbn [fst snd] in *. subst r.
  cbn. unfold collections_from in *. cbn in K |- *.
  rewrite <- A, <- T. exact K.
Qed.

(** X25: the store never edits its collections in place. After any
    action, whatever the backend answered and in whatever order, the
    accounts in memory are the accounts held before, or none, or the rows
    of the accounts answer, mapped; likewise the transactions. *)
Theorem collections_only_replaced
    (ps : Settled SessionResponse) (p : Settled (option JsError))
    (f : Refetch) (transactionData : TransactionInsert.t)
    (id : number) (changes : TransactionUpdate.t)
    (event : AuthEvent) (se : option Session) (w : World) :
  let from := collections_from Date_getTime (accounts_answer f)
                (transactions_answer f) w in
  from (after (fetchAccounts Date_getTime (accounts_answer f)) w)
  /\ from (after (fetchTransactions Date_getTime (transactions_answer f)) w)
  /\ from (after (addTransaction Date_getTime now transactionData p f) w)
  /\ from (after (updateTransaction Date_getTime id changes p f) w)
  /\ from (after (deleteTransaction Date_getTime id p f) w)
  /\ from (after (checkSession Date_getTime ps f) w)
  /\ from (after (signOut p) w)
  /\ from (after (onAuthStateChange Date_getTime event se f) w)
  /\ from (after recalculateSummaries w).
Proof.
  cbv zeta.
  split; [|split; [|split; [|split; [|split; [|split; [|split; [|split]]]]]]].
  - unfold after. rewrite fetchAccounts_in_two_parts. unfold bind.
    destruct (user (store w)) as [u|] eqn:U.
    + rewrite (fetchAccounts_request_some _ U).
      pose proof (fetchAccounts_settle_collections (accounts_answer f)
                    {| store := with_isLoading true (store w);
                       remote := remote w ++ [select_accounts (user_id u)];
                       console := console w |}) as [K1 K2].
      unfold after in K1, K2. split; [right; exact K1 | left; exact K2].
    + rewrite (fetchAccounts_request_none _ U).
      apply collections_from_refl; reflexivity.
  - unfold after. rewrite fetchTransactions_in_two_parts. unfold bind.
    destruct (user (store w)) as [u|] eqn:U.
    + rewrite (fetchTransactions_request_some _ U).
      pose proof (fetchTransactions_settle_collections (transactions_answer f)
                    {| store := with_isLoading true (store w);
                       remote := remote w ++ [select_transactions (user_id u)];
                       console := console w |}) as [K1 K2].
      unfold after in K1, K2. split; [left; exact K2 | right; exact K1].
    + rewrite (fetchTransactions_request_none _ U).
      apply collections_from_refl; reflexivity.
  - destruct (user (store w)) as [u|] eqn:U.
    + unfold addTransaction, after, bind at 1, get. cbn [fst snd]. rewrite U.
      unfold bind at 1. cbn [set].
      apply guarded_refetch_collections; reflexivity.
    + unfold after. rewrite addTransaction_no_user by exact U.
      apply collections_from_refl; reflexivity.
  - unfold updateTransaction, after, bind at 1. cbn [set].
    apply guarded_refetch_collections; reflexivity.
  - unfold deleteTransaction, after, bind at 1. cbn [set].
    apply guarded_refetch_collections; reflexivity.
  - unfold after. destruct ps as [[rs [e|]]|e];
      try (cbn; apply collections_from_refl; reflexivity).
    unfold checkSession. run_action.
    destruct (user_of rs) as [u|] eqn:U.
    + pose proof (fetch_both_collections f
                    {| store := with_session rs (Some u)
                                  (with_isSessionLoading true (store w));
                       remote := remote w ++ [auth_getSession];
                       console := console w |}) as K.
      pose proof (never_throws_unit
                    {| store := with_session rs (Some u)
                                  (with_isSessionLoading true (store w));
                       remote := remote w ++ [auth_getSession];
                       console := console w |}
                    (fetch_both_returns f)) as R.
      unfold after in K. unfold completion in R.
      destruct (fetch_both Date_getTime f _) as [r w1].
      cbn [fst snd] in *. subst r. cbn. exact K.
    + cbn. split; right; left; reflexivity.
  - unfold after. destruct p as [[e|]|e]; cbn;
      first [apply collections_from_refl; reflexivity
            | split; right; left; reflexivity].
  - unfold after, onAuthStateChange, setSession, bind, set. cbn [fst snd].
    destruct event.
    + pose proof (fetch_both_collections f
                    {| store := with_session se (user_of se) (store w);
                       remote := remote w; console := console w |}) as K.
      unfold after in K.
      destruct (fetch_both Date_getTime f _) as [r w1]. cbn [fst snd] in *.
      destruct r; exact K.
    + rewrite recalculateSummaries_run. cbn.
      apply collections_from_refl; rewrite recalculated_summaries; reflexivity.
    + cbn. apply collections_from_refl; reflexivity.
  - unfold after. rewrite recalculateSummaries_run. cbn.
    apply collections_from_refl; rewrite recalculated_summaries; reflexivity.
Qed.

(** X26: a joint refetch of which one select fails. The collection whose
    select failed ends empty and the other holds its rows. When the
    failure is answered first, the summaries end fresh; when it is
    answered last, the summaries are those computed just before, over the
    collection that was then dropped: stale unless they happen to agree
    with those of an empty collection. *)
Theorem fetch_both_partial_failure
    (pa : Settled (Response AccountRow.t))
    (pt : Settled (Response TransactionRow.t))
    (w : World) (u : User) (e : JsError) :
  user (store w) = Some u ->
  select_failure pa = None ->
  select_failure pt = Some e ->
  let fetched := map (mapAccount Date_getTime) (rows_of pa) in
  let failure_first :=
    store (after (fetch_both Date_getTime
                    {| accounts_answer := pa; transactions_answer := pt;
                       arrival := transactions_first |}) w) in
  let failure_last :=
    store (after (fetch_both Date_getTime
                    {| accounts_answer := pa; transactions_answer := pt;
                       arrival := accounts_first |}) w) in
  accounts failure_first = fetched /\ transactions failure_first = []
  /\ summaries_fresh failure_first
  /\ accounts failure_last = fetched /\ transactions failure_last = []
  /\ summaries failure_last
     = summaries (recalculated (with_accounts fetched (store w))).
Proof.
  intros U Fa Ft. cbv zeta. unfold after, fetch_both, bind.
  rewrite (fetchAccounts_request_some _ U).
  rewrite (@fetchTransactions_request_some _ u) by exact U.
  cbn [arrival accounts_answer transactions_answer settle_accounts
       settle_transactions].
  rewrite (fetchTransactions_settle_failed _ _ Ft).
  rewrite (fetchAccounts_settle_fulfilled _ _ Fa).
  rewrite (fetchAccounts_settle_fulfilled _ _ Fa).
  rewrite (fetchTransactions_settle_failed _ _ Ft).
  cbn [fst snd store].
  split; [rewrite recalculated_summaries; reflexivity|].
  split; [rewrite recalculated_summaries; reflexivity|].
  split; [apply with_isLoading_fresh, recalculated_fresh|].
  split; [rewrite recalculated_summaries; reflexivity|].
  split; [rewrite recalculated_summaries; reflexivity|].
  rewrite !recalculated_summaries. reflexivity.
Qed.

End StoreProperties.

(* ================================================================== *)
(** * Summaries after sign-out and after a lost refetch *)

Lemma signed_in_fresh :
  summaries_fresh (store signed_in)
  /\ summaries (store signed_in) = (74.5%float, 5%float, Some 10%float).
Proof. split; vm_compute; reflexivity. Qed.

(** C4 fails on the code. [signOut] empties [accounts] and
    [transactions] and does not recalculate: starting from scenarios A and
    B with fresh summaries, a successful sign-out leaves net cash 74.50,
    weight on hand 5 and ratio 10 over empty collections, where a
    recalculation gives 0, 0 and [null]. *)
Theorem signOut_leaves_summaries_stale :
  let w' := after (signOut done) signed_in in
  summaries_fresh (store signed_in)
  /\ completion (signOut done) signed_in = Return tt
  /\ console w' = []
  /\ user (store w') = None
  /\ accounts (store w') = []
  /\ transactions (store w') = []
  /\ summaries (store w') = (74.5%float, 5%float, Some 10%float)
  /\ summaries (recalculated (store w')) = (0%float, 0%float, None)
  /\ ~ summaries_fresh (store w').
Proof.
  cbv zeta. repeat split; try (vm_compute; reflexivity).
  intros H. apply summaries_fresh_fields in H. destruct H as [_ [_ H]].
  vm_compute in H. discriminate H.
Qed.

(** The listener of [onAuthStateChange] recalculates on [SIGNED_OUT]. Run
    between the two parts of [signOut], it does so over the collections
    not yet emptied, and the summaries end stale all the same; run after
    [signOut], it makes them fresh. *)
Lemma signOut_listener_before_settling (f : Refetch) :
  let w' := after (signOut_request ;;
                   onAuthStateChange epoch_getTime SIGNED_OUT None f ;;
                   signOut_settle done) signed_in in
  accounts (store w') = []
  /\ transactions (store w') = []
  /\ summaries (store w') = (74.5%float, 5%float, Some 10%float).
Proof. repeat split. Qed.

Lemma signOut_listener_after (f : Refetch) :
  let w' := after (signOut done ;;
                   onAuthStateChange epoch_getTime SIGNED_OUT None f)
                  signed_in in
  summaries_fresh (store w')
  /\ summaries (store w') = (0%float, 0%float, None).
Proof. split; vm_compute; reflexivity. Qed.

(** [checkSession] empties the collections in the same way when it finds
    no user. *)
Lemma checkSession_no_user_leaves_summaries_stale (f : Refetch) :
  let w' := after (checkSession epoch_getTime no_session f) signed_in in
  accounts (store w') = []
  /\ transactions (store w') = []
  /\ summaries (store w') = (74.5%float, 5%float, Some 10%float).
Proof. repeat split. Qed.

(** [addTransaction] returns [true] once the insert has succeeded, also
    when one of its two fetches fails afterwards: with the accounts
    answered first and the transactions lost, the transactions are empty
    and the weight on hand is still 5. *)
Lemma addTransaction_lost_refetch_leaves_summaries_stale :
  let run := addTransaction epoch_getTime noon a_sale done
                            refetch_transactions_lost in
  completion run signed_in = Return true
  /\ transactions (store (after run signed_in)) = []
  /\ summaries (store (after run signed_in))
     = (130%float, 5%float, Some 10%float)
  /\ ~ summaries_fresh (store (after run signed_in)).
Proof.
  cbv zeta. repeat split; try (vm_compute; reflexivity).
  intros H. apply summaries_fresh_fields in H. destruct H as [_ [_ H]].
  vm_compute in H. discriminate H.
Qed.

(** Where the insert and both fetches succeed, the summaries are those of
    the collections fetched. *)
Lemma addTransaction_refetched_fresh :
  let run := addTransaction epoch_getTime noon a_sale done refetch_ok in
  completion run signed_in = Return true
  /\ summaries_fresh (store (after run signed_in))
  /\ summaries (store (after run signed_in))
     = (130%float, (-3)%float, Some 10%float).
Proof. repeat split; vm_compute; reflexivity. Qed.

(* ================================================================== *)
(** * The theorems at concrete inputs *)

Lemma addTransaction_insert_failure_rejected :
  completion (addTransaction epoch_getTime noon a_sale
                (Rejected network_down) refetch_ok) signed_in
  = Return false
  /\ transactions
       (store (after (addTransaction epoch_getTime noon a_sale
                        (Rejected network_down) refetch_ok) signed_in))
     = scenario_B.
Proof.
  destruct (@addTransaction_insert_failure epoch_getTime noon a_sale
              (Rejected network_down) refetch_ok signed_in alice network_down
              eq_refl eq_refl) as [R [T _]].
  split; [exact R | exact T].
Defined.

Lemma fetch_failure_empties_scenarios :
  accounts
    (store (after (fetchAccounts epoch_getTime (Rejected network_down))
                  signed_in)) = []
  /\ transactions
       (store (after (fetchTransactions epoch_getTime
                        (Fulfilled {| data := None;
                                      error := Some network_down |}))
                     signed_in)) = [].
Proof.
  destruct (@fetch_failure_empties_collection epoch_getTime
              (Rejected network_down)
              (Fulfilled {| data := None; error := Some network_down |})
              signed_in alice network_down network_down
              eq_refl eq_refl eq_refl) as [[A _] [T _]].
  split; [exact A | exact T].
Defined.

Lemma checkSession_no_session :
  accounts (store (after (checkSession epoch_getTime no_session refetch_ok)
                         signed_in)) = []
  /\ transactions (store (after (checkSession epoch_getTime no_session refetch_ok)
                                signed_in)) = []
  /\ isSessionLoading
       (store (after (checkSession epoch_getTime no_session refetch_ok)
                     signed_in)) = false
  /\ console (after (checkSession epoch_getTime (Rejected network_down)
                       refetch_ok) (world_of initialState))
     = [Session_check_failed network_down].
Proof.
  destruct (checkSession_no_user_and_never_throws epoch_getTime no_session
              refetch_ok signed_in) as [E _].
  destruct (E eq_refl eq_refl) as [A [T L]].
  destruct (checkSession_no_user_and_never_throws epoch_getTime
              (Rejected network_down) refetch_ok (world_of initialState))
    as [_ [_ F]].
  destruct (F network_down eq_refl) as [C _].
  split; [exact A|]. split; [exact T|]. split; [exact L | exact C].
Defined.

Lemma mapped_sale_row :
  Transaction.timestamp (mapTransaction epoch_getTime (sale_row null null null))
  = 1000%float
  /\ Transaction.notes (mapTransaction epoch_getTime (sale_row null null null))
     = undefined
  /\ Transaction.category (mapTransaction epoch_getTime (sale_row null null null))
     = undefined
  /\ Transaction.related_transaction_id
       (mapTransaction epoch_getTime (sale_row null null null))
     = undefined.
Proof.
  destruct (mapped_timestamps_and_absent_fields epoch_getTime chime_row
              (sale_row null null null)) as [_ [T [_ [N [C R]]]]].
  split; [exact T|].
  split; [exact (N eq_refl)|].
  split; [exact (C eq_refl) | exact (R eq_refl)].
Defined.

Lemma no_user_at_start :
  fetchAccounts epoch_getTime (rows [chime_row]) (world_of initialState)
  = (Return tt, world_of initialState)
  /\ addTransaction epoch_getTime noon a_sale done refetch_ok
       (world_of initialState)
     = (Return false, world_of initialState)
  /\ remote (after (updateTransaction epoch_getTime 3%float a_change done
                      refetch_ok) (world_of initialState))
     = [update_transaction 3%float a_change]
  /\ completion (deleteTransaction epoch_getTime 3%float done refetch_ok)
                (world_of initialState)
     = Return true.
Proof.
  destruct (@no_user_short_circuits epoch_getTime noon (rows [chime_row])
              (rows [sale_row null null null]) a_sale 3%float a_change done
              refetch_ok (world_of initialState) eq_refl)
    as [A [_ [B [U [_ S]]]]].
  destruct (S eq_refl) as [_ D].
  split; [exact A|]. split; [exact B|]. split; [exact U | exact D].
Defined.

Lemma mapped_empty_strings_and_zero :
  Transaction.notes
    (mapTransaction epoch_getTime (sale_row (value "") (value "") (value 0%float)))
  = undefined
  /\ Transaction.category
       (mapTransaction epoch_getTime
          (sale_row (value "") (value "") (value 0%float)))
     = undefined
  /\ Transaction.related_transaction_id
       (mapTransaction epoch_getTime
          (sale_row (value "") (value "") (value 0%float)))
     = undefined.
Proof.
  destruct (mapTransaction_drops_falsy_fields epoch_getTime
              (sale_row (value "") (value "") (value 0%float)))
    as [N [C R]].
  split; [exact (N eq_refl)|].
  split; [exact (C eq_refl) | exact (R eq_refl)].
Defined.

(* ================================================================== *)
(** * More theorems at concrete inputs *)

Lemma fetch_both_order_irrelevant_signed_in :
  fetch_both epoch_getTime refetch_ok signed_in
  = fetch_both epoch_getTime
      {| accounts_answer := rows [chime_row];
         transactions_answer := rows [sale_row null null null];
         arrival := transactions_first |} signed_in.
Proof.
  exact (@fetch_both_order_irrelevant epoch_getTime (rows [chime_row])
           (rows [sale_row null null null]) signed_in alice
           eq_refl eq_refl eq_refl).
Defined.

Lemma isLoading_cleared_after_lost_refetch :
  isLoading
    (store (after (addTransaction epoch_getTime noon a_sale done
                     refetch_transactions_lost) signed_in)) = false
  /\ isLoading
       (store (after (fetchAccounts epoch_getTime (Rejected network_down))
                     signed_in)) = false.
Proof.
  destruct (isLoading_cleared epoch_getTime noon (Rejected network_down)
              (rows [sale_row null null null]) done refetch_transactions_lost
              a_sale 3%float a_change signed_in) as [_ [_ H]].
  destruct (H alice eq_refl) as [A [B _]].
  split; [exact A | exact B].
Defined.

Lemma update_failure_signed_in :
  completion (updateTransaction epoch_getTime 1%float a_change
                (Fulfilled (Some network_down)) refetch_ok) signed_in
  = Return false
  /\ transactions
       (store (after (updateTransaction epoch_getTime 1%float a_change
                        (Fulfilled (Some network_down)) refetch_ok) signed_in))
     = scenario_B.
Proof.
  destruct (@update_delete_failure epoch_getTime 1%float a_change
              (Fulfilled (Some network_down)) refetch_ok signed_in network_down
              eq_refl) as [U _].
  unfold completion, after. rewrite U. split; reflexivity.
Defined.

Lemma signOut_outcomes_signed_in :
  accounts (store (after (signOut done) signed_in)) = []
  /\ store (after (signOut (Rejected network_down)) signed_in) = store signed_in.
Proof.
  destruct (signOut_outcomes done signed_in) as [S _].
  destruct (S eq_refl) as [_ [_ [A _]]].
  destruct (signOut_outcomes (Rejected network_down) signed_in) as [_ [F _]].
  destruct (F network_down eq_refl) as [K _].
  split; [exact A | exact K].
Defined.

Lemma mutation_success_signed_in :
  completion (addTransaction epoch_getTime noon a_sale done refetch_ok) signed_in
  = Return true
  /\ remote (after (addTransaction epoch_getTime noon a_sale done refetch_ok)
                   signed_in)
     = [insert_transaction
          {| payload_data := a_sale; payload_user_id := "user-1";
             payload_timestamp := noon |};
        select_accounts "user-1"; select_transactions "user-1"]
  /\ map Account.current_balance
         (accounts (store (after (deleteTransaction epoch_getTime 1%float done
                                    refetch_ok) signed_in)))
     = [130%float].
Proof.
  destruct (@mutation_success epoch_getTime noon a_sale 1%float a_change
              refetch_ok signed_in alice eq_refl eq_refl eq_refl)
    as [_ [A [_ D]]].
  unfold completion, after. rewrite A, D. repeat split.
Defined.

Lemma mutation_result_lost_refetch :
  completion (addTransaction epoch_getTime noon a_sale done
                refetch_transactions_lost) signed_in
  = Return true.
Proof.
  destruct (mutation_result_is_remote_outcome epoch_getTime noon a_sale
              1%float a_change done refetch_transactions_lost signed_in)
    as [_ [_ A]].
  exact (A alice eq_refl).
Defined.

Lemma fetch_success_replaces_scenarios :
  map Account.id
      (accounts (store (after (fetchAccounts epoch_getTime (rows [chime_row]))
                              signed_in)))
  = ["Chime"]
  /\ transactions
       (store (after (fetchTransactions epoch_getTime
                        (Fulfilled {| data := None; error := None |}))
                     signed_in))
     = [].
Proof.
  destruct (@fetch_success_replaces_collection epoch_getTime (rows [chime_row])
              (Fulfilled {| data := None; error := None |}) signed_in alice
              eq_refl eq_refl eq_refl) as [[_ [A _]] [T _]].
  split; [exact A | exact T].
Defined.

Lemma signed_out_elsewhere_keeps_collections :
  accounts (store (after (onAuthStateChange epoch_getTime SIGNED_OUT None
                            refetch_ok) signed_in))
  = scenario_A
  /\ user (store (after (onAuthStateChange epoch_getTime SIGNED_OUT None
                           refetch_ok) signed_in)) = None
  /\ remote (after (onAuthStateChange epoch_getTime SIGNED_IN None refetch_ok)
                   (world_of initialState)) = [].
Proof.
  destruct (onAuthStateChange_effects epoch_getTime None refetch_ok
              "TOKEN_REFRESHED" signed_in) as [_ [[_ [U [A _]]] _]].
  destruct (onAuthStateChange_effects epoch_getTime None refetch_ok
              "TOKEN_REFRESHED" (world_of initialState)) as [_ [_ I]].
  split; [exact A|]. split; [exact U|].
  unfold after. rewrite (I eq_refl). reflexivity.
Defined.

Lemma checkSession_finds_alice :
  user (store (after (checkSession epoch_getTime
                        (Fulfilled {| response_session := Some alice_session;
                                      session_error := None |})
                        refetch_ok) (world_of initialState)))
  = Some alice
  /\ summaries (store (after (checkSession epoch_getTime
                                (Fulfilled {| response_session := Some alice_session;
                                              session_error := None |})
                                refetch_ok) (world_of initialState)))
     = (130%float, (-3)%float, Some 10%float).
Proof.
  destruct (@checkSession_with_user epoch_getTime noon
              {| response_session := Some alice_session; session_error := None |}
              alice_session alice refetch_ok (world_of initialState)
              eq_refl eq_refl eq_refl eq_refl eq_refl) as [_ [U _]].
  split; [exact U | vm_compute; reflexivity].
Defined.

Lemma summaries_without_sales :
  dollarPerGramRatio
    (store (after recalculateSummaries
              (ledger [] [transaction_of 2%float "Purchase" (-20)%float 10%float])))
  = None.
Proof.
  destruct (summaries_without_data
              (ledger [] [transaction_of 2%float "Purchase" (-20)%float 10%float]))
    as [R _].
  apply R. intros tx [<-|[]]. reflexivity.
Defined.

(* ================================================================== *)
(** * The sign-in form *)

Lemma one_or_more_spec (cls : N -> bool) (k : AuthForm.text -> bool) :
  forall s : AuthForm.text,
    AuthForm.one_or_more cls k s = true
    <-> exists a r, s = (a ++ r)%list /\ a <> []
                    /\ forallb cls a = true /\ k r = true.
Proof.
  induction s as [|c s IH]; cbn [AuthForm.one_or_more].
  - split; [discriminate|].
    intros [a [r [E [N _]]]]. destruct a; [contradiction | discriminate E].
  - rewrite andb_true_iff, orb_true_iff, IH. split.
    + intros [C [[a [r [E [N [F K]]]]]|K]].
      * exists (c :: a), r. subst s. cbn. rewrite C, F.
        repeat split; [discriminate | assumption].
      * exists [c], s. cbn. rewrite C. repeat split; [discriminate | assumption].
    + intros [a [r [E [N [F K]]]]]. destruct a as [|c' a]; [contradiction|].
      cbn in E, F. inversion E; subst. apply andb_true_iff in F.
      destruct F as [C F]. split; [exact C|].
      destruct a as [|c'' a].
      * right. exact K.
      * left. exists (c'' :: a), r. repeat split; [discriminate | | ]; assumption.
Qed.

Lemma literal_spec (c : N) (k : AuthForm.text -> bool) (s : AuthForm.text) :
  AuthForm.literal c k s = true <-> exists r, s = c :: r /\ k r = true.
Proof.
  destruct s as [|c' r]; cbn.
  - split; [discriminate | intros [r [E _]]; discriminate E].
  - rewrite andb_true_iff, N.eqb_eq. split.
    + intros [-> K]. exists r. split; [reflexivity | exact K].
    + intros [r' [E K]]. inversion E; subst. split; [reflexivity | exact K].
Qed.

Lemma end_of_input_spec (s : AuthForm.text) :
  AuthForm.end_of_input s = true <-> s = [].
Proof. destruct s; cbn; split; congruence. Qed.

(** X14: the email pattern of [validateForm] accepts exactly the strings
    made of a non-empty part, an at sign, a non-empty part, a full stop
    and a non-empty part, where no part holds white space or an at sign:
    so an accepted email has one at sign, no white space, and a full stop
    after the at sign with something on both sides of it. *)
Theorem emailRegex_accepts (email : AuthForm.text) :
  AuthForm.emailRegex_test email = true
  <-> exists local before_dot after_dot,
        email = (local ++ [AuthForm.commercial_at] ++ before_dot
                       ++ [AuthForm.full_stop] ++ after_dot)%list
        /\ local <> [] /\ before_dot <> [] /\ after_dot <> []
        /\ forallb AuthForm.not_space_or_at local = true
        /\ forallb AuthForm.not_space_or_at before_dot = true
        /\ forallb AuthForm.not_space_or_at after_dot = true.
Proof.
  unfold AuthForm.emailRegex_test. rewrite one_or_more_spec. split.
  - intros [a [r [E [Na [Fa K]]]]].
    apply literal_spec in K. destruct K as [r1 [E1 K]].
    apply one_or_more_spec in K. destruct K as [b [r2 [E2 [Nb [Fb K]]]]].
    apply literal_spec in K. destruct K as [r3 [E3 K]].
    apply one_or_more_spec in K. destruct K as [c [r4 [E4 [Nc [Fc K]]]]].
    apply end_of_input_spec in K. subst.
    exists a, b, c. rewrite app_nil_r. repeat split; assumption.
  - intros [a [b [c [E [Na [Nb [Nc [Fa [Fb Fc]]]]]]]]].
    exists a, ([AuthForm.commercial_at] ++ b ++ [AuthForm.full_stop] ++ c)%list.
    repeat split; try assumption.
    apply literal_spec. eexists. split; [reflexivity|].
    apply one_or_more_spec. exists b, ([AuthForm.full_stop] ++ c)%list.
    repeat split; try assumption.
    apply literal_spec. eexists. split; [reflexivity|].
    apply one_or_more_spec. exists c, []. rewrite app_nil_r.
    repeat split; assumption.
Qed.

(** X15: [validateForm] returns [true] exactly when the email matches the
    pattern, the password is not empty and, on sign-up only, the password
    has at least 6 code units; it changes nothing of the form but the
    recorded errors. *)
Theorem validateForm_accepts (st : AuthForm.State) :
  (fst (AuthForm.validateForm st) = true
   <-> AuthForm.emailRegex_test (AuthForm.email st) = true
       /\ AuthForm.password st <> []
       /\ (AuthForm.isSignUp st = true ->
           (6 <= List.length (AuthForm.password st))%nat))
  /\ AuthForm.with_validationErrors (AuthForm.validationErrors st)
       (snd (AuthForm.validateForm st)) = st.
Proof.
  split; [|reflexivity].
  unfold AuthForm.validateForm, AuthForm.validation_errors, AuthForm.has_no_keys.
  cbn [fst AuthForm.email_error AuthForm.password_error].
  destruct (Nat.ltb_spec (List.length (AuthForm.password st)) 6) as [L|L];
    destruct (AuthForm.emailRegex_test (AuthForm.email st));
    destruct (AuthForm.password st) as [|c pw] eqn:P;
    destruct (AuthForm.isSignUp st);
    cbn [negb andb]; (split; [intros H | intros [H1 [H2 H3]]]);
    try discriminate H; try discriminate H1; try reflexivity;
    try (exfalso; apply H2; reflexivity);
    try (specialize (H3 eq_refl); cbn [List.length] in *; lia);
    (split; [reflexivity|]); (split; [discriminate|]);
    intros I; try discriminate I; exact L.
Qed.

Lemma validateForm_ignores_messages (st : AuthForm.State) :
  AuthForm.validateForm
    (AuthForm.with_validationErrors AuthForm.no_errors
       (AuthForm.with_message null st))
  = (fst (AuthForm.validateForm st),
     AuthForm.with_message null (snd (AuthForm.validateForm st))).
Proof. reflexivity. Qed.

(** X16: [handleAuth] on a form that does not validate sends nothing to
    the auth service: it records the errors, clears the message and
    leaves [loading] and what was typed as they were. *)
Theorem handleAuth_invalid (p : Settled (option JsError)) (st : AuthForm.State) :
  fst (AuthForm.validateForm st) = false ->
  AuthForm.handleAuth p st
  = {| AuthForm.state :=
         AuthForm.with_message null (snd (AuthForm.validateForm st));
       AuthForm.calls := [];
       AuthForm.completed := Return tt |}.
Proof.
  intros V. unfold AuthForm.handleAuth.
  rewrite validateForm_ignores_messages. rewrite V. reflexivity.
Qed.

(** X17: [handleAuth] on a form that validates sends one request, a
    sign-up or a sign-in with what was typed, never throws, and ends with
    [loading] [false] whatever the answer. A failure, rejected or
    reported, shows the error's message, or a fixed text when that is
    empty, and keeps what was typed; a successful sign-up shows the
    confirmation and empties both fields; a successful sign-in shows
    nothing. *)
Theorem handleAuth_valid (p : Settled (option JsError)) (st : AuthForm.State) :
  fst (AuthForm.validateForm st) = true ->
  let r := AuthForm.handleAuth p st in
  AuthForm.completed r = Return tt
  /\ AuthForm.loading (AuthForm.state r) = false
  /\ AuthForm.validationErrors (AuthForm.state r) = AuthForm.no_errors
  /\ AuthForm.calls r
     = [if AuthForm.isSignUp st
        then AuthForm.signUp (AuthForm.email st) (AuthForm.password st)
        else AuthForm.signInWithPassword (AuthForm.email st)
               (AuthForm.password st)]
  /\ match call_failure p with
     | Some e =>
         AuthForm.message (AuthForm.state r)
         = value {| AuthForm.message_type := AuthForm.error;
                    AuthForm.message_text :=
                      match e with
                      | mkError m =>
                          if String.eqb m ""
                          then "Authentication failed. Please try again."
                          else m
                      end |}
         /\ AuthForm.email (AuthForm.state r) = AuthForm.email st
         /\ AuthForm.password (AuthForm.state r) = AuthForm.password st
     | None =>
         if AuthForm.isSignUp st then
           AuthForm.message (AuthForm.state r)
           = value {| AuthForm.message_type := AuthForm.success;
                      AuthForm.message_text :=
                        "Check your email to verify your account!" |}
           /\ AuthForm.email (AuthForm.state r) = []
           /\ AuthForm.password (AuthForm.state r) = []
         else
           AuthForm.message (AuthForm.state r) = null
           /\ AuthForm.email (AuthForm.state r) = AuthForm.email st
           /\ AuthForm.password (AuthForm.state r) = AuthForm.password st
     end.
Proof.
  intros V. cbv zeta. unfold AuthForm.handleAuth.
  rewrite validateForm_ignores_messages. rewrite V. cbn.
  assert (E : AuthForm.validation_errors st = AuthForm.no_errors).
  { unfold AuthForm.validateForm, AuthForm.has_no_keys in V. cbn [fst] in V.
    destruct (AuthForm.validation_errors st) as [[|a] [|b]];
      cbn in V; try discriminate V. reflexivity. }
  rewrite E.
  destruct p as [[[m]|]|[m]]; cbn; unfold truthy_string;
    try (destruct (String.eqb m ""); cbn; repeat split).
  destruct (AuthForm.isSignUp st); cbn; repeat split.
Qed.

(** X18: [handleOAuthSignIn] has no [catch]: when the auth call is
    rejected the exception reaches the caller and [loading] stays [true];
    when the call reports an error the message names the provider and
    [loading] is [false]; when it succeeds [loading] stays [true], for the
    redirect. One request is sent in each case. *)
Theorem handleOAuthSignIn_outcomes
    (provider : string) (p : Settled (option JsError)) (st : AuthForm.State) :
  let r := AuthForm.handleOAuthSignIn provider p st in
  AuthForm.calls r = [AuthForm.signInWithOAuth provider]
  /\ match p with
     | Rejected e =>
         AuthForm.completed r = Throw e
         /\ AuthForm.loading (AuthForm.state r) = true
         /\ AuthForm.message (AuthForm.state r) = null
     | Fulfilled (Some (mkError m)) =>
         AuthForm.completed r = Return tt
         /\ AuthForm.loading (AuthForm.state r) = false
         /\ AuthForm.message (AuthForm.state r)
            = value {| AuthForm.message_type := AuthForm.error;
                       AuthForm.message_text :=
                         "Error signing in with " ++ provider ++ ": " ++ m |}
     | Fulfilled None =>
         AuthForm.completed r = Return tt
         /\ AuthForm.loading (AuthForm.state r) = true
         /\ AuthForm.message (AuthForm.state r) = null
     end.
Proof.
  cbv zeta. destruct p as [[[m]|]|e]; cbn; repeat split.
Qed.

(* ================================================================== *)
(** * The dashboard *)

Lemma isNaN_spec (x : number) :
  isNaN x = match Prim2SF x with S754_nan => true | _ => false end.
Proof.
  unfold isNaN. rewrite FloatAxioms.eqb_spec.
  destruct (Prim2SF x) as [s|s| |s m e]; try reflexivity; unfold SFeqb; cbn.
  - destruct s; reflexivity.
  - destruct s; rewrite Z.compare_refl, Pos.compare_cont_refl; reflexivity.
Qed.

(** [Math.abs(x)] and [-Math.abs(x)] of a number that is not NaN. *)
Lemma abs_of_number (x : number) :
  isNaN x = false ->
  isNaN (abs x) = false /\ (0 <=? abs x)%float = true
  /\ isNaN (- abs x)%float = false /\ (- abs x <=? 0)%float = true.
Proof.
  rewrite !isNaN_spec, !FloatAxioms.leb_spec, FloatAxioms.opp_spec,
    FloatAxioms.abs_spec.
  change (Prim2SF 0%float) with (S754_zero false).
  destruct (Prim2SF x) as [s|s| |s m e]; intros H; try discriminate H;
    repeat split.
Qed.

Section DashboardProperties.

Variable Date_getTime : string -> number.
Variable now : string.
Variable parseFloat : string -> number.

(** X20: [handleSubmitTransaction] passes the form on to the store
    exactly when an account is selected, the amount is a number and, for
    an Expense, not zero, and, for the other types, the weight is a number
    and amount and weight are not both zero; an empty field is read as
    ["0"]. Otherwise it shows one alert and changes neither the form nor
    the store, and sends nothing. *)
Theorem handleSubmitTransaction_accepts
    (accounts : list Account.t) (form : App.TransactionForm)
    (p : Settled (option JsError)) (f : Refetch) (w : World) :
  let amount := parseFloat (App.or_string (App.amountInput form) "0") in
  let weight := parseFloat (App.or_string (App.weightInput form) "0") in
  let r := App.handleSubmitTransaction Date_getTime now parseFloat
             accounts form p f w in
  (App.alerts r = []
   <-> App.selectedAccountId form <> ""
       /\ isNaN amount = false
       /\ (App.formType form = "Expense" -> is_zero amount = false)
       /\ (App.formType form <> "Expense" ->
           isNaN weight = false
           /\ (is_zero amount = false \/ is_zero weight = false)))
  /\ (App.alerts r <> [] ->
      List.length (App.alerts r) = 1%nat
      /\ App.ui r = form /\ App.world r = w
      /\ App.completed r = Return tt).
Proof.
  cbv zeta. unfold App.handleSubmitTransaction. unfold truthy_string, is_zero.
  set (a := parseFloat (App.or_string (App.amountInput form) "0")).
  set (wt := parseFloat (App.or_string (App.weightInput form) "0")).
  destruct (String.eqb_spec (App.selectedAccountId form) "") as [S|S];
    cbn [negb].
  { split; [|intros _; repeat split].
    split; [discriminate | intros [N _]; contradiction]. }
  destruct (String.eqb_spec (App.formType form) "Expense") as [T|T];
    destruct (isNaN a) eqn:Na; cbn [negb andb orb].
  - split; [|intros _; repeat split].
    split; [discriminate | intros [_ [N _]]; discriminate N].
  - rewrite andb_false_r. cbn [andb].
    destruct (a =? 0)%float eqn:Za.
    + split; [|intros _; repeat split].
      split; [discriminate|]. intros [_ [_ [E _]]]. specialize (E T).
      discriminate E.
    + match goal with
      | |- context [let '(_, _) := ?c in _] => destruct c as [[[|]|e] w1]
      end; cbn; (split; [|intros N; contradiction]);
        (split; [intros _|reflexivity]); repeat split; try assumption;
        intros; contradiction.
  - split; [|intros _; repeat split].
    split; [discriminate | intros [_ [N _]]; discriminate N].
  - destruct (isNaN wt) eqn:Nw; cbn [andb orb].
    + split; [|intros _; repeat split].
      split; [discriminate|]. intros [_ [_ [_ E]]]. destruct (E T) as [E1 _].
      discriminate E1.
    + rewrite andb_true_r.
      destruct (a =? 0)%float eqn:Za; destruct (wt =? 0)%float eqn:Zw;
        cbn [andb].
      * split; [|intros _; repeat split].
        split; [discriminate|]. intros [_ [_ [_ E]]].
        destruct (E T) as [_ [E1|E1]]; discriminate E1.
      * match goal with
        | |- context [let '(_, _) := ?c in _] => destruct c as [[[|]|e] w1]
        end; cbn; (split; [|intros N; contradiction]);
          (split; [intros _|reflexivity]); repeat split; try assumption;
          try (intros; contradiction); right; reflexivity.
      * match goal with
        | |- context [let '(_, _) := ?c in _] => destruct c as [[[|]|e] w1]
        end; cbn; (split; [|intros N; contradiction]);
          (split; [intros _|reflexivity]); repeat split; try assumption;
          try (intros; contradiction); left; reflexivity.
      * match goal with
        | |- context [let '(_, _) := ?c in _] => destruct c as [[[|]|e] w1]
        end; cbn; (split; [|intros N; contradiction]);
          (split; [intros _|reflexivity]); repeat split; try assumption;
          try (intros; contradiction); left; reflexivity.
Qed.

(** A form is turned away with one alert, or passed to the store with an
    amount that is a number and, unless it is an Expense, a weight that
    is a number. *)
Lemma handleSubmitTransaction_cases
    (accounts : list Account.t) (form : App.TransactionForm)
    (p : Settled (option JsError)) (f : Refetch) (w : World) :
  let amount := parseFloat (App.or_string (App.amountInput form) "0") in
  let weight := parseFloat (App.or_string (App.weightInput form) "0") in
  let r := App.handleSubmitTransaction Date_getTime now parseFloat
             accounts form p f w in
  (exists text, r = App.alert_and_return text form w)
  \/ (isNaN amount = false
      /\ (App.formType form <> "Expense" -> isNaN weight = false)
      /\ r = App.pass_to_store Date_getTime now accounts form amount weight
               p f w).
Proof.
  cbv zeta. unfold App.handleSubmitTransaction.
  set (a := parseFloat (App.or_string (App.amountInput form) "0")).
  set (wt := parseFloat (App.or_string (App.weightInput form) "0")).
  destruct (negb (truthy_string (App.selectedAccountId form)));
    [left; eexists; reflexivity|].
  destruct (isNaN a) eqn:Na; cbn [orb]; [left; eexists; reflexivity|].
  destruct (String.eqb_spec (App.formType form) "Expense") as [T|T];
    cbn [negb andb].
  - rewrite andb_false_r.
    destruct (a =? 0)%float; [left; eexists; reflexivity|].
    right. split; [reflexivity|]. split; [intros N; contradiction|].
    unfold App.pass_to_store. rewrite T. reflexivity.
  - destruct (isNaN wt) eqn:Nw; [left; eexists; reflexivity|].
    rewrite andb_true_r.
    destruct ((a =? 0)%float && (wt =? 0)%float); [left; eexists; reflexivity|].
    right. split; [reflexivity|]. split; [intros _; reflexivity|].
    unfold App.pass_to_store. rewrite (proj2 (String.eqb_neq _ _) T).
    reflexivity.
Qed.

(** X21: whatever signs the user types, the amount the form sends to the
    store is a number that is zero or negative for a Purchase or an
    Expense and zero or positive for every other type; the weight change
    it sends is a number that is zero or positive for a Purchase, zero or
    negative for a Sale, and 0 for every other type. The data goes to
    [updateTransaction] when a transaction is being edited and to
    [addTransaction] otherwise. *)
Theorem handleSubmitTransaction_normalises
    (accounts : list Account.t) (form : App.TransactionForm)
    (p : Settled (option JsError)) (f : Refetch) (w : World) :
  let r := App.handleSubmitTransaction Date_getTime now parseFloat
             accounts form p f w in
  App.alerts r = [] ->
  exists amount weightChange : number,
    isNaN amount = false /\ isNaN weightChange = false
    /\ (if String.eqb (App.formType form) "Purchase"
           || String.eqb (App.formType form) "Expense"
        then (amount <=? 0)%float else (0 <=? amount)%float) = true
    /\ (if String.eqb (App.formType form) "Purchase"
        then (0 <=? weightChange)%float = true
        else if String.eqb (App.formType form) "Sale"
             then (weightChange <=? 0)%float = true
             else weightChange = 0%float)
    /\ App.world r
       = let sent_as_insert :=
           App.as_insert (App.formType form) amount weightChange
             (App.or_absent (App.notesInput form))
             (App.selectedAccountId form) (App.selectedCategory form) in
         let sent_as_update :=
           App.as_update (App.formType form) amount weightChange
             (App.or_absent (App.notesInput form))
             (App.selectedAccountId form) (App.selectedCategory form) in
         match App.isEditingTransaction form with
         | value id =>
             if truthy_number id
             then after (updateTransaction Date_getTime id sent_as_update p f) w
             else after (addTransaction Date_getTime now sent_as_insert p f) w
         | null => after (addTransaction Date_getTime now sent_as_insert p f) w
         end.
Proof.
  cbv zeta. intros A.
  destruct (handleSubmitTransaction_cases accounts form p f w)
    as [[text E]|[Na [Nw E]]].
  { rewrite E in A. discriminate A. }
  rewrite E. clear E A.
  set (a := parseFloat (App.or_string (App.amountInput form) "0")) in *.
  set (wt := parseFloat (App.or_string (App.weightInput form) "0")) in *.
  destruct (abs_of_number a Na) as [A1 [A2 [A3 A4]]].
  unfold App.pass_to_store.
  exists (if String.eqb (App.formType form) "Purchase"
             || String.eqb (App.formType form) "Expense"
          then (- abs a)%float else abs a).
  exists (if String.eqb (App.formType form) "Purchase" then abs wt
          else if String.eqb (App.formType form) "Sale" then (- abs wt)%float
               else 0%float).
  split; [|split; [|split; [|split]]].
  - destruct (String.eqb (App.formType form) "Purchase"
              || String.eqb (App.formType form) "Expense"); assumption.
  - destruct (String.eqb_spec (App.formType form) "Purchase") as [P|P].
    + apply abs_of_number, Nw. rewrite P. discriminate.
    + destruct (String.eqb_spec (App.formType form) "Sale") as [S|S];
        [|reflexivity].
      apply abs_of_number, Nw. rewrite S. discriminate.
  - destruct (String.eqb (App.formType form) "Purchase"
              || String.eqb (App.formType form) "Expense"); assumption.
  - destruct (String.eqb_spec (App.formType form) "Purchase") as [P|P].
    + apply abs_of_number, Nw. rewrite P. discriminate.
    + destruct (String.eqb_spec (App.formType form) "Sale") as [S|S];
        [|reflexivity].
      apply abs_of_number, Nw. rewrite S. discriminate.
  - cbv zeta. unfold after.
    destruct (App.isEditingTransaction form) as [|id];
      [|destruct (truthy_number id)];
      match goal with
      | |- context [let '(_, _) := ?c in _] => destruct c as [[[|]|e] w1]
      end; reflexivity.
Qed.

(** X22: a form passed to the store is reset exactly when the store
    reports success. When editing, or adding with a user signed in, that
    is when the remote mutation succeeded: the form becomes the empty
    Sale form with the first account the component rendered with;
    otherwise what was typed is kept. Adding with no user signed in keeps
    the form, sends nothing and shows nothing. *)
Theorem handleSubmitTransaction_resets_on_success
    (accounts : list Account.t) (form : App.TransactionForm)
    (p : Settled (option JsError)) (f : Refetch) (w : World) :
  let r := App.handleSubmitTransaction Date_getTime now parseFloat
             accounts form p f w in
  let editing :=
    match App.isEditingTransaction form with
    | value id => truthy_number id
    | null => false
    end in
  App.alerts r = [] ->
  App.completed r = Return tt
  /\ (editing = true \/ user (store w) <> None ->
      App.ui r = match call_failure p with
                 | None => App.clearTransactionForm accounts
                 | Some _ => form
                 end)
  /\ (editing = false -> user (store w) = None ->
      App.ui r = form /\ App.world r = w).
Proof.
  cbv zeta. intros A.
  destruct (handleSubmitTransaction_cases accounts form p f w)
    as [[text E]|[_ [_ E]]].
  { rewrite E in A. discriminate A. }
  rewrite E. clear E A. unfold App.pass_to_store.
  set (d := App.as_insert _ _ _ _ _ _).
  set (c := App.as_update _ _ _ _ _ _).
  assert (Add : forall u, user (store w) = Some u ->
            fst (addTransaction Date_getTime now d p f w)
            = Return (match call_failure p with None => true | Some _ => false end))
    by (intros u U; apply addTransaction_completion with (u := u); exact U).
  assert (Upd : forall id,
            fst (updateTransaction Date_getTime id c p f w)
            = Return (match call_failure p with None => true | Some _ => false end))
    by (intros id; apply updateTransaction_completion).
  destruct (App.isEditingTransaction form) as [|id];
    [|destruct (truthy_number id) eqn:T].
  - destruct (user (store w)) as [u|] eqn:U.
    + specialize (Add u eq_refl).
      destruct (addTransaction Date_getTime now d p f w) as [r1 w1].
      cbn [fst] in Add. subst r1.
      destruct (call_failure p); cbn; repeat split; intros; congruence.
    + rewrite addTransaction_no_user by exact U. cbn.
      split; [reflexivity|]. split; [|intros; split; reflexivity].
      intros [H|H]; [discriminate H | contradiction].
  - specialize (Upd id).
    destruct (updateTransaction Date_getTime id c p f w) as [r1 w1].
    cbn [fst] in Upd. subst r1.
    destruct (call_failure p); cbn; repeat split; intros; congruence.
  - destruct (user (store w)) as [u|] eqn:U.
    + specialize (Add u eq_refl).
      destruct (addTransaction Date_getTime now d p f w) as [r1 w1].
      cbn [fst] in Add. subst r1.
      destruct (call_failure p); cbn; repeat split; intros; congruence.
    + rewrite addTransaction_no_user by exact U. cbn.
      split; [reflexivity|]. split; [|intros; split; reflexivity].
      intros [H|H]; [discriminate H | contradiction].
Qed.

End DashboardProperties.


(** X23: provided no sale carries NaN as its weight change, the ratio
    card takes the no-data colour after a recalculation exactly when
    every Sale in memory has a zero weight change, that is when there is
    no weight sold to divide by. *)
Theorem ratio_card_nodata (w : World) :
  sale_weights_are_numbers (transactions (store w)) ->
  (App.getRatingClass
     (dollarPerGramRatio (store (after recalculateSummaries w)))
   = "text-ratio-nodata"
   <-> forall tx, In tx (transactions (store w)) -> is_sale tx = true ->
                  is_zero (Transaction.weightChange tx) = true).
Proof.
  intros H.
  pose proof (nonneg_positive_or_zero _ (sale_weights_nonneg H)) as P.
  rewrite <- (sale_weights_zero H).
  unfold after. rewrite recalculateSummaries_eq. cbn. rewrite P.
  fold (is_zero (ieee_sum (sale_weights (transactions (store w))))).
  destruct (is_zero (ieee_sum (sale_weights (transactions (store w))))); cbn.
  - split; reflexivity.
  - split; [|discriminate].
    destruct (10 <=? _)%float; [discriminate|].
    destruct (5 <=? _)%float; discriminate.
Qed.

(** X24: the account form cannot be submitted. The store built in
    [src/store.ts] has no [addAccount], [updateAccount] or
    [deleteAccount], so [handleAccountSubmit] throws a TypeError at the
    call: the form stays open with what was typed and nothing reaches the
    store or the backend. [handleDeleteAccount] throws likewise once the
    user confirms, and does nothing when the user declines. *)
Theorem account_handlers_throw
    (parseFloat : string -> number) (form : App.AccountForm) (w : World)
    (id : string) :
  let r := App.handleAccountSubmit parseFloat form w in
  (App.completed r = Throw (mkError "addAccount is not a function")
   \/ App.completed r = Throw (mkError "updateAccount is not a function"))
  /\ App.ui r = form /\ App.world r = w
  /\ App.handleDeleteAccount true id form w
     = {| App.ui := form; App.alerts := []; App.world := w;
          App.completed := Throw (mkError "deleteAccount is not a function") |}
  /\ App.handleDeleteAccount false id form w
     = {| App.ui := form; App.alerts := []; App.world := w;
          App.completed := Return tt |}.
Proof.
  cbv zeta. unfold App.handleAccountSubmit.
  destruct (App.editingAccountId form) as [|eid];
    [|destruct (truthy_string eid)]; cbn; repeat split;
    first [left; reflexivity | right; reflexivity].
Qed.

(* ================================================================== *)
(** * The forms at concrete inputs *)

Lemma handleAuth_invalid_email :
  AuthForm.calls (AuthForm.handleAuth done (sign_in_form "alice@example" "secret"))
  = []
  /\ AuthForm.email_error
       (AuthForm.validationErrors
          (AuthForm.state
             (AuthForm.handleAuth done (sign_in_form "alice@example" "secret"))))
     = defined "Please enter a valid email address.".
Proof.
  rewrite (@handleAuth_invalid done (sign_in_form "alice@example" "secret")
             eq_refl).
  split; reflexivity.
Defined.

Lemma handleAuth_valid_sign_in :
  AuthForm.calls
    (AuthForm.handleAuth (Rejected network_down)
       (sign_in_form "alice@example.com" "secret"))
  = [AuthForm.signInWithPassword (AuthForm.text_of_string "alice@example.com")
       (AuthForm.text_of_string "secret")]
  /\ AuthForm.loading
       (AuthForm.state
          (AuthForm.handleAuth (Rejected network_down)
             (sign_in_form "alice@example.com" "secret")))
     = false.
Proof.
  destruct (@handleAuth_valid (Rejected network_down)
              (sign_in_form "alice@example.com" "secret") eq_refl)
    as [_ [L [_ [C _]]]].
  split; [exact C | exact L].
Defined.

Lemma sale_form_normalised :
  exists amount weightChange : number,
    (0 <=? amount)%float = true /\ (weightChange <=? 0)%float = true
    /\ remote (App.world (App.handleSubmitTransaction epoch_getTime noon
                            example_parseFloat scenario_A sale_form done
                            refetch_ok signed_in))
       = remote (after (addTransaction epoch_getTime noon
                          (App.as_insert "Sale" amount weightChange undefined
                             "Chime" "Business")
                          done refetch_ok) signed_in).
Proof.
  destruct (@handleSubmitTransaction_normalises epoch_getTime noon
              example_parseFloat scenario_A sale_form done refetch_ok signed_in
              eq_refl) as [a [wc [_ [_ [A [W E]]]]]].
  exists a, wc. split; [exact A|]. split; [exact W|].
  rewrite E. reflexivity.
Defined.

Lemma sale_form_reset :
  App.ui (App.handleSubmitTransaction epoch_getTime noon example_parseFloat
            scenario_A sale_form done refetch_ok signed_in)
  = App.clearTransactionForm scenario_A
  /\ App.ui (App.handleSubmitTransaction epoch_getTime noon example_parseFloat
               scenario_A sale_form (Rejected network_down) refetch_ok signed_in)
     = sale_form.
Proof.
  destruct (@handleSubmitTransaction_resets_on_success epoch_getTime noon
              example_parseFloat scenario_A sale_form done refetch_ok signed_in
              eq_refl) as [_ [S _]].
  destruct (@handleSubmitTransaction_resets_on_success epoch_getTime noon
              example_parseFloat scenario_A sale_form (Rejected network_down)
              refetch_ok signed_in eq_refl) as [_ [F _]].
  split.
  - apply S. right. discriminate.
  - apply F. right. discriminate.
Defined.

Lemma ratio_card_nodata_without_sales :
  App.getRatingClass
    (dollarPerGramRatio
       (store (after recalculateSummaries
                 (ledger [] [transaction_of 2%float "Purchase" (-20)%float
                               10%float]))))
  = "text-ratio-nodata".
Proof.
  apply ratio_card_nodata.
  - intros tx [<-|[]] S. discriminate S.
  - intros tx [<-|[]] S. discriminate S.
Defined.

Lemma partial_failure_signed_in :
  summaries_fresh
    (store (after (fetch_both epoch_getTime
                     {| accounts_answer := rows [chime_row];
                        transactions_answer := Rejected network_down;
                        arrival := transactions_first |}) signed_in))
  /\ summaries
       (store (after (fetch_both epoch_getTime refetch_transactions_lost)
                     signed_in))
     = (130%float, 5%float, Some 10%float).
Proof.
  destruct (@fetch_both_partial_failure epoch_getTime noon (rows [chime_row])
              (Rejected network_down) signed_in alice network_down
              eq_refl eq_refl eq_refl) as [_ [_ [F [_ [_ S]]]]].
  split; [exact F|]. unfold refetch_transactions_lost. rewrite S.
  vm_compute. reflexivity.
Defined.

Lemma sale_form_without_account :
  App.alerts
    (App.handleSubmitTransaction epoch_getTime noon example_parseFloat
       scenario_A
       {| App.formType := "Sale"; App.amountInput := "-50";
          App.weightInput := "5"; App.notesInput := "";
          App.selectedAccountId := ""; App.selectedCategory := "Business";
          App.isEditingTransaction := null |}
       done refetch_ok signed_in)
  = ["Please select an account."]
  /\ App.alerts
       (App.handleSubmitTransaction epoch_getTime noon example_parseFloat
          scenario_A sale_form done refetch_ok signed_in)
     = [].
Proof.
  split; [reflexivity|].
  apply (proj1 (@handleSubmitTransaction_accepts epoch_getTime noon
                  example_parseFloat scenario_A sale_form done refetch_ok
                  signed_in)).
  split; [discriminate|]. split; [reflexivity|].
  split; [discriminate|]. intros _. split; [reflexivity | left; reflexivity].
Defined.
